(** * mappie: tile-coordinate and image-compositing engine

    A shallow embedding of [adjust.py] and of the map managers of
    [sources.py], followed by the properties of the specification that
    are settled against it.

    Conventions of the embedding.
    - Python [float] values are read as real numbers ([R]): every
      arithmetic operation and every [math] function is the exact one.
      The exceptions the [math] module raises on the reals
      (division by zero, logarithm of a non-positive number) are kept.
    - Python [int] values are [Z].
    - A call that can raise returns a [result]; the stateful methods run
      in a state-and-exception monad over the [World] they act on. *)

From Stdlib Require Import Reals Lra Lia ZArith Ascii.
From stdpp Require Import base strings gmap list pretty.

(** ** Python runtime *)

Module Py.

(** The exception classes the modelled code raises or meets. *)
Inductive exn : Type :=
| Exception (msg : string)
| ValueError (msg : string)
| ZeroDivisionError (msg : string)
| NameError (msg : string)
| AttributeError (msg : string)
| IndexError (msg : string)
| TypeError (msg : string)
| IOError (msg : string).

(** [str(e)]: the message of an exception. *)
Definition str_exn (e : exn) : string :=
  match e with
  | Exception m | ValueError m | ZeroDivisionError m | NameError m
  | AttributeError m | IndexError m | TypeError m | IOError m => m
  end.

Inductive result (A : Type) : Type :=
| Ok (a : A)
| Raise (e : exn).
Arguments Ok {A} a.
Arguments Raise {A} e.

#[global] Instance result_ret : MRet result := fun A a => Ok a.
#[global] Instance result_bind : MBind result := fun A B k r =>
  match r with
  | Ok a => k a
  | Raise e => Raise e
  end.

(** [round(x)] of Python 2 on a float: the nearest integer, a tie going
    away from zero; the value is again a float. *)
Definition round_half_away (x : R) : Z :=
  if Rle_dec 0 x then Zfloor (x + / 2) else Zceil (x - / 2).

Definition round (x : R) : R := IZR (round_half_away x).

(** [int(x)] on a float truncates toward zero. *)
Definition int (x : R) : Z :=
  if Rle_dec 0 x then Zfloor x else Zceil x.

(** [math.radians], [math.degrees]. *)
Definition radians (x : R) : R := (x * (PI / 180))%R.
Definition degrees (x : R) : R := (x * (180 / PI))%R.

(** [math.log]: a domain error outside the positive reals. *)
Definition log (x : R) : result R :=
  if Rlt_dec 0 x then Ok (ln x) else Raise (ValueError "math domain error").

(** Float division [a / b]. *)
Definition fdiv (a b : R) : result R :=
  if Req_dec_T b 0 then Raise (ZeroDivisionError "float division by zero")
  else Ok (a / b)%R.

(** [x << k] on integers: a negative count is an error. *)
Definition lshift (x k : Z) : result Z :=
  if (k <? 0)%Z then Raise (ValueError "negative shift count")
  else Ok (Z.shiftl x k).

(** [2.0 ** zoom] for an integer [zoom]. *)
Definition pow2 (zoom : Z) : R := powerRZ 2 zoom.

(** The values the keyword arguments of the managers carry.  Floats do
    not occur among them in this model. *)
#[warnings="-register-all"]
Inductive value : Type :=
| VNone
| VBool (b : bool)
| VInt (n : Z)
| VStr (s : string)
| VTuple (l : list value)
| VList (l : list value).

(** Truth value of an object in a condition. *)
Definition truthy (v : value) : bool :=
  match v with
  | VNone => false
  | VBool b => b
  | VInt n => negb (n =? 0)%Z
  | VStr s => negb (String.eqb s "")
  | VTuple l | VList l => negb (Nat.eqb (length l) 0)
  end.

(** The integer a [bool] or [int] stands for in arithmetic and in
    comparisons with numbers. *)
Definition as_int (v : value) : option Z :=
  match v with
  | VBool b => Some (if b then 1 else 0)%Z
  | VInt n => Some n
  | _ => None
  end.

Definition isinstance_str (v : value) : bool :=
  match v with VStr _ => true | _ => false end.
Definition isinstance_bool (v : value) : bool :=
  match v with VBool _ => true | _ => false end.
Definition isinstance_tuple (v : value) : bool :=
  match v with VTuple _ => true | _ => false end.
Definition isinstance_list (v : value) : bool :=
  match v with VList _ => true | _ => false end.

(** [v == n] for an integer literal [n]. *)
Definition eq_int (v : value) (n : Z) : bool :=
  match as_int v with Some m => (m =? n)%Z | None => false end.

(** [v in (n1, n2, ...)] for a tuple of integer literals. *)
Definition in_ints (v : value) (ns : list Z) : bool := existsb (eq_int v) ns.

(** [v in (s1, s2, ...)] for a tuple of string literals. *)
Definition in_strs (v : value) (ss : list string) : bool :=
  match v with
  | VStr s => existsb (String.eqb s) ss
  | _ => false
  end.

(** [s > 0 and s <= 640] in Python 2, where objects of different types
    compare by a fixed order: [None] is below every number, and a string,
    tuple or list is above every number. *)
Definition gt0_le640 (v : value) : bool :=
  match as_int v with
  | Some n => (0 <? n)%Z && (n <=? 640)%Z
  | None => false
  end.

(** The line feed of ["\n"]. *)
Definition newline : string := String (ascii_of_nat 10) EmptyString.

(** [kwargs.get(key)]. *)
Definition kwargs_get (kwargs : gmap string value) (key : string) : value :=
  default VNone (kwargs !! key).

(** ["%d" % n]. *)
Definition fmt_d (n : Z) : string := pretty n.

(** [range(a, b)]. *)
Definition range (a b : Z) : list Z := seqZ a (b - a).

(** [os.path.join(a, b)] of [posixpath]. *)
Definition startswith_slash (s : string) : bool :=
  match s with
  | String c _ => Ascii.eqb c "/"%char
  | EmptyString => false
  end.

Fixpoint endswith_slash (s : string) : bool :=
  match s with
  | EmptyString => false
  | String c EmptyString => Ascii.eqb c "/"%char
  | String _ rest => endswith_slash rest
  end.

Definition path_join (a b : string) : string :=
  if startswith_slash b then b
  else if String.eqb a "" || endswith_slash a then a +:+ b
  else a +:+ "/" +:+ b.

End Py.

(** ** hashlib.md5 *)

Module hashlib.

Definition mask32 (x : Z) : Z := Z.land x 4294967295.

Definition rotl32 (x c : Z) : Z :=
  mask32 (Z.lor (Z.shiftl x c) (Z.shiftr x (32 - c))).

Definition not32 (x : Z) : Z := Z.lxor x 4294967295.

Definition shifts : list Z :=
  [7; 12; 17; 22; 7; 12; 17; 22; 7; 12; 17; 22; 7; 12; 17; 22;
   5; 9; 14; 20; 5; 9; 14; 20; 5; 9; 14; 20; 5; 9; 14; 20;
   4; 11; 16; 23; 4; 11; 16; 23; 4; 11; 16; 23; 4; 11; 16; 23;
   6; 10; 15; 21; 6; 10; 15; 21; 6; 10; 15; 21; 6; 10; 15; 21]%Z.

Definition sines : list Z :=
  [3614090360; 3905402710; 606105819; 3250441966;
   4118548399; 1200080426; 2821735955; 4249261313;
   1770035416; 2336552879; 4294925233; 2304563134;
   1804603682; 4254626195; 2792965006; 1236535329;
   4129170786; 3225465664; 643717713; 3921069994;
   3593408605; 38016083; 3634488961; 3889429448;
   568446438; 3275163606; 4107603335; 1163531501;
   2850285829; 4243563512; 1735328473; 2368359562;
   4294588738; 2272392833; 1839030562; 4259657740;
   2763975236; 1272893353; 4139469664; 3200236656;
   681279174; 3936430074; 3572445317; 76029189;
   3654602809; 3873151461; 530742520; 3299628645;
   4096336452; 1126891415; 2878612391; 4237533241;
   1700485571; 2399980690; 4293915773; 2240044497;
   1873313359; 4264355552; 2734768916; 1309151649;
   4149444226; 3174756917; 718787259; 3951481745]%Z.

(** Little-endian bytes of a word, and back. *)
Fixpoint le_bytes (n : nat) (x : Z) : list Z :=
  match n with
  | O => []
  | S n' => Z.land x 255 :: le_bytes n' (Z.shiftr x 8)
  end.

Fixpoint le_word (bs : list Z) : Z :=
  match bs with
  | [] => 0
  | b :: rest => (b + 256 * le_word rest)%Z
  end.

Definition bytes_of_string (s : string) : list Z :=
  (fun c => Z.of_N (N_of_ascii c)) <$> String.list_ascii_of_string s.

Definition pad (msg : list Z) : list Z :=
  let len := Z.of_nat (length msg) in
  msg ++ [128%Z]
      ++ replicate (Z.to_nat ((55 - len) `mod` 64)) 0%Z
      ++ le_bytes 8 (8 * len).

(** The sixteen words of each 64-byte block. *)
Fixpoint words (n : nat) (bs : list Z) : list Z :=
  match n with
  | O => []
  | S n' => le_word (take 4 bs) :: words n' (drop 4 bs)
  end.

Fixpoint blocks (n : nat) (bs : list Z) : list (list Z) :=
  match n with
  | O => []
  | S n' => words 16 (take 64 bs) :: blocks n' (drop 64 bs)
  end.

Definition state : Type := Z * Z * Z * Z.

Definition step (m : list Z) (st : state) (i : nat) : state :=
  let '(a, b, c, d) := st in
  let iz := Z.of_nat i in
  let '(f, g) :=
    if (i <? 16)%nat then
      (Z.lor (Z.land b c) (Z.land (not32 b) d), iz)
    else if (i <? 32)%nat then
      (Z.lor (Z.land d b) (Z.land (not32 d) c), (5 * iz + 1) `mod` 16)%Z
    else if (i <? 48)%nat then
      (Z.lxor (Z.lxor b c) d, (3 * iz + 5) `mod` 16)%Z
    else
      (Z.lxor c (Z.lor b (not32 d)), (7 * iz) `mod` 16)%Z in
  let f' := mask32 (f + a + sines !!! i + m !!! Z.to_nat g) in
  (d, mask32 (b + rotl32 f' (shifts !!! i)), b, c).

Definition compress (st : state) (m : list Z) : state :=
  let '(a0, b0, c0, d0) := st in
  let '(a, b, c, d) := foldl (step m) st (seq 0 64) in
  (mask32 (a0 + a), mask32 (b0 + b), mask32 (c0 + c), mask32 (d0 + d)).

Definition init : state := (1732584193, 4023233417, 2562383102, 271733878)%Z.

Definition digest (msg : list Z) : list Z :=
  let padded := pad msg in
  let '(a, b, c, d) :=
    foldl compress init (blocks (length padded / 64) padded) in
  le_bytes 4 a ++ le_bytes 4 b ++ le_bytes 4 c ++ le_bytes 4 d.

Definition hex_digit (n : Z) : ascii :=
  default "0"%char (String.list_ascii_of_string "0123456789abcdef" !! Z.to_nat n).

Definition hex_byte (b : Z) : string :=
  String (hex_digit (b / 16)) (String (hex_digit (b `mod` 16)) EmptyString).

(** [hashlib.md5(s).hexdigest()]. *)
Definition md5_hexdigest (s : string) : string :=
  foldr (fun b acc => hex_byte b +:+ acc) "" (digest (bytes_of_string s)).

End hashlib.

(** ** adjust.py *)

Module adjust.
Import Py.
Local Open Scope R_scope.

Definition OFFSET : Z := 268435456.
Definition RADIUS : R := IZR OFFSET / PI.

Definition LonToX (lon : R) : R :=
  round (IZR OFFSET + RADIUS * radians lon).

Definition LatToY (lat : R) : result R :=
  q ← fdiv (1 + sin (radians lat)) (1 - sin (radians lat));
  l ← log q;
  Ok (round (IZR OFFSET - RADIUS * l / 2)).

Definition XToLon (x : R) : R :=
  degrees ((round x - IZR OFFSET) / RADIUS).

Definition YToLat (y : R) : R :=
  degrees (PI / 2 - 2 * atan (exp ((round y - IZR OFFSET) / RADIUS))).

Definition XYToLL (x y : Z) (lon lat : R) (z : Z) : result (R * R) :=
  sx ← lshift x (21 - z);
  let resultX := XToLon (LonToX lon + IZR sx) in
  py ← LatToY lat;
  sy ← lshift y (21 - z);
  let resultY := YToLat (py + IZR sy) in
  Ok (resultX, resultY).

End adjust.

(** ** sources.py *)

Module sources.
Import Py.

(** *** Tile arithmetic of [MapManager]

    [get_tile_coord] and [tile_nw_latlon] do not read [self]. *)

Section TileArithmetic.
Local Open Scope R_scope.

Definition get_tile_coord (lon_deg lat_deg : R) (zoom : Z) : result (Z * Z) :=
  let lat_rad := lat_deg * PI / 180 in
  let n := pow2 zoom in
  let xtile := int ((lon_deg + 180) / 360 * n) in
  sec ← fdiv 1 (cos lat_rad);
  l ← log (tan lat_rad + sec);
  let ytile := int ((1 - l / PI) / 2 * n) in
  Ok (xtile, ytile).

Definition tile_nw_latlon (tile_coord : Z * Z) (zoom : Z) : R * R :=
  let '(xtile, ytile) := tile_coord in
  let n := pow2 zoom in
  let lon_deg := IZR xtile / n * 360 - 180 in
  let lat_rad := atan (sinh (PI * (1 - IZR (2 * ytile) / n))) in
  let lat_deg := lat_rad * 180 / PI in
  (lat_deg, lon_deg).

End TileArithmetic.

(** *** The world the managers act on *)

(** A PIL image, as far as the managers can tell images apart: the
    identity of the object, the mode and size it was created with, and
    the files pasted into it so far, oldest first. *)
Record Image : Type := mkImage {
  img_id : nat;
  img_mode : string;
  img_width : Z;
  img_height : Z;
  img_pastes : list (string * (Z * Z))
}.

(** [PILImageManager]: the attributes [image] and [mode]. *)
Record ImageManager : Type := mkImageManager {
  image : option Image;
  mode : string
}.

Inductive klass : Type :=
| MapManagerClass
| StamenManagerClass
| OSMManagerClass
| GoogleManagerClass.

(** The attributes of a manager object.  [None] in an optional field
    says that the attribute has not been assigned yet. *)
Record MapManager : Type := mkMapManager {
  class_of : klass;
  cache : string;
  server : string;
  cache_prefix : string;
  manager : option ImageManager;
  maptype : option value;
  size : option value;
  scale : option value;
  style : option value;
  markers : option value;
  paths : option value
}.

(** A number in a coordinate tuple. *)
Inductive num : Type :=
| NInt (n : Z)
| NFloat (x : R).

(** The [tile_coord] argument: tile indices for the tile managers, the
    bounding box itself for [GoogleManager]. *)
Inductive coord : Type :=
| Tile (x y : Z)
| BBox (minlat maxlat minlon maxlon : R).

Definition coord_0 (c : coord) : num :=
  match c with Tile x _ => NInt x | BBox a _ _ _ => NFloat a end.
Definition coord_1 (c : coord) : num :=
  match c with Tile _ y => NInt y | BBox _ b _ _ => NFloat b end.

(** What the outside world answers to a download. *)
Inductive fetch_result : Type :=
| Fetched (body : string)
| FetchFailed (e : exn) (partial : option string).

(** Calls that leave the process or reach the image library, in the
    order they happen. *)
Inductive event : Type :=
| EvCreateImage (md : string) (width height : Z)
| EvRetrieve (c : coord) (zoom : Z)
| EvFetch (url filename : string)
| EvPaste (filename : string) (xy : Z * Z).

Record World : Type := mkWorld {
  self : MapManager;
  files : gmap string string;
  fetches : nat;
  next_id : nat;
  trace : list event;
  stdout : list string
}.

(** The collaborators outside the repository:
    - [http_get k url]: the answer to the [k]-th download, of [url];
    - [pil_open body]: whether PIL opens a file with these contents;
    - [str_float x]: [str(x)] of a float;
    - [str_seq v]: [str(v)] of a tuple or list. *)
Class Env : Type := mkEnv {
  http_get : nat -> string -> fetch_result;
  pil_open : string -> result unit;
  str_float : R -> string;
  str_seq : value -> string
}.

(** State and exceptions: a raised exception keeps the state reached. *)
Definition M (A : Type) : Type := World -> result A * World.

#[global] Instance M_ret : MRet M := fun A a w => (Ok a, w).
#[global] Instance M_bind : MBind M := fun A B k m w =>
  match m w with
  | (Ok a, w') => k a w'
  | (Raise e, w') => (Raise e, w')
  end.

Definition raise {A} (e : exn) : M A := fun w => (Raise e, w).
Definition lift {A} (r : result A) : M A := fun w => (r, w).
Definition get_world : M World := fun w => (Ok w, w).
Definition get_self : M MapManager := fun w => (Ok (self w), w).
Definition set_self (s : MapManager) : M unit := fun w =>
  (Ok tt, mkWorld s (files w) (fetches w) (next_id w) (trace w) (stdout w)).
Definition log (ev : event) : M unit := fun w =>
  (Ok tt, mkWorld (self w) (files w) (fetches w) (next_id w)
                  (trace w ++ [ev]) (stdout w)).
Definition print (line : string) : M unit := fun w =>
  (Ok tt, mkWorld (self w) (files w) (fetches w) (next_id w)
                  (trace w) (stdout w ++ [line])).

Definition fresh_id : M nat := fun w =>
  (Ok (next_id w), mkWorld (self w) (files w) (fetches w) (S (next_id w))
                           (trace w) (stdout w)).

(** [try: m except Exception, e: h e]. *)
Definition try_except {A} (m : M A) (h : exn -> M A) : M A := fun w =>
  match m w with
  | (Ok a, w') => (Ok a, w')
  | (Raise e, w') => h e w'
  end.

Fixpoint for_each {A} (l : list A) (body : A -> M unit) : M unit :=
  match l with
  | [] => mret tt
  | x :: rest => body x ;; for_each rest body
  end.

(** Reading an attribute that was never assigned. *)
Definition attr {A} (name : string) (field : option A) : M A :=
  match field with
  | Some a => mret a
  | None => raise (AttributeError name)
  end.

Definition set_maptype (v : value) : M unit :=
  s ← get_self;
  set_self (mkMapManager (class_of s) (cache s) (server s) (cache_prefix s)
              (manager s) (Some v) (size s) (scale s) (style s)
              (markers s) (paths s)).
Definition set_size (v : value) : M unit :=
  s ← get_self;
  set_self (mkMapManager (class_of s) (cache s) (server s) (cache_prefix s)
              (manager s) (maptype s) (Some v) (scale s) (style s)
              (markers s) (paths s)).
Definition set_scale (v : value) : M unit :=
  s ← get_self;
  set_self (mkMapManager (class_of s) (cache s) (server s) (cache_prefix s)
              (manager s) (maptype s) (size s) (Some v) (style s)
              (markers s) (paths s)).
Definition set_style (v : value) : M unit :=
  s ← get_self;
  set_self (mkMapManager (class_of s) (cache s) (server s) (cache_prefix s)
              (manager s) (maptype s) (size s) (scale s) (Some v)
              (markers s) (paths s)).
Definition set_markers (v : value) : M unit :=
  s ← get_self;
  set_self (mkMapManager (class_of s) (cache s) (server s) (cache_prefix s)
              (manager s) (maptype s) (size s) (scale s) (style s)
              (Some v) (paths s)).
Definition set_paths (v : value) : M unit :=
  s ← get_self;
  set_self (mkMapManager (class_of s) (cache s) (server s) (cache_prefix s)
              (manager s) (maptype s) (size s) (scale s) (style s)
              (markers s) (Some v)).
Definition set_manager (m : ImageManager) : M unit :=
  s ← get_self;
  set_self (mkMapManager (class_of s) (cache s) (server s) (cache_prefix s)
              (Some m) (maptype s) (size s) (scale s) (style s)
              (markers s) (paths s)).

(** [self.manager], for a call of one of its methods. *)
Definition the_manager : M ImageManager :=
  s ← get_self;
  match manager s with
  | Some m => mret m
  | None => raise (AttributeError "'NoneType' object has no attribute")
  end.

(** *** ImageManager and PILImageManager *)

(** [PILImageManager.create_image]: [PIL.Image.new(self.mode, (width,
    height))], taken to return a new blank image of that mode and size. *)
Definition create_image (width height : Z) : M Image :=
  m ← the_manager;
  log (EvCreateImage (mode m) width height) ;;
  i ← fresh_id;
  mret (mkImage i (mode m) width height []).

Definition prepare_image (width height : Z) (overwrite : bool) : M unit :=
  m ← the_manager;
  if bool_decide (is_Some (image m)) && negb overwrite then
    raise (Exception
      "Image already prepared. Set 'overwrite' to True if you want to create a new image.")
  else
    img ← create_image width height;
    m' ← the_manager;
    set_manager (mkImageManager (Some img) (mode m')).

Definition destroy_image : M unit :=
  m ← the_manager;
  set_manager (mkImageManager None (mode m)).

(** [PILImageManager.load_image_file]: [PIL.Image.open(imagef)]. *)
Definition load_image_file `{Env} (imagef : string) : M unit :=
  w ← get_world;
  match files w !! imagef with
  | None => raise (IOError ("No such file or directory: " +:+ imagef))
  | Some body => lift (pil_open body)
  end.

(** [PILImageManager.paste_image]: [self.get_image().paste(img, xy)]. *)
Definition paste_image (imagef : string) (xy : Z * Z) : M unit :=
  m ← the_manager;
  match image m with
  | None => raise (AttributeError "'NoneType' object has no attribute 'paste'")
  | Some img =>
      log (EvPaste imagef xy) ;;
      set_manager
        (mkImageManager
           (Some (mkImage (img_id img) (img_mode img) (img_width img)
                          (img_height img) (img_pastes img ++ [(imagef, xy)])))
           (mode m))
  end.

Definition paste_image_file `{Env} (imagef : string) (xy : Z * Z) : M unit :=
  m ← the_manager;
  if bool_decide (image m = None) then raise (Exception "Image not prepared!")
  else
    try_except (load_image_file imagef)
      (fun e => raise (Exception
         ("Could not load image " +:+ imagef +:+ newline +:+ str_exn e))) ;;
    paste_image imagef xy.

Definition get_image : M (option Image) :=
  m ← the_manager;
  mret (image m).

(** *** String formatting *)

(** A ["%s"] directive applied to one element of the argument tuple. *)
Definition fmt_s `{Env} (v : value) : string :=
  match v with
  | VNone => "None"
  | VBool true => "True"
  | VBool false => "False"
  | VInt n => fmt_d n
  | VStr s => s
  | VTuple _ | VList _ => str_seq v
  end.

(** A ["%d"] directive applied to a number: a float is truncated. *)
Definition fmt_d_num (n : num) : string :=
  match n with
  | NInt k => fmt_d k
  | NFloat x => fmt_d (int x)
  end.

(** [fmt % v] for a format with a single ["%s"]: a tuple on the right is
    the argument tuple itself. *)
Definition percent_s1 `{Env} (v : value) : result string :=
  match v with
  | VTuple [x] => Ok (fmt_s x)
  | VTuple [] => Raise (TypeError "not enough arguments for format string")
  | VTuple _ =>
      Raise (TypeError "not all arguments converted during string formatting")
  | _ => Ok (fmt_s v)
  end.

(** [fmt % v] for a format with two ["%s"]. *)
Definition percent_s2 `{Env} (v : value) : result (string * string) :=
  match v with
  | VTuple [x; y] => Ok (fmt_s x, fmt_s y)
  | VTuple (_ :: _ :: _ :: _) =>
      Raise (TypeError "not all arguments converted during string formatting")
  | _ => Raise (TypeError "not enough arguments for format string")
  end.

(** [re.sub('[&]+', '&', s)]. *)
Fixpoint collapse_amp (s : string) : string :=
  match s with
  | EmptyString => EmptyString
  | String c rest =>
      if Ascii.eqb c "&"%char then
        match rest with
        | String c' _ =>
            if Ascii.eqb c' "&"%char then collapse_amp rest
            else String c (collapse_amp rest)
        | EmptyString => String c EmptyString
        end
      else String c (collapse_amp rest)
  end.

(** [if s.endswith("&"): s = s[:-1]]. *)
Fixpoint strip_last_amp (s : string) : string :=
  match s with
  | EmptyString => EmptyString
  | String c EmptyString =>
      if Ascii.eqb c "&"%char then EmptyString else s
  | String c rest => String c (strip_last_amp rest)
  end.

(** [sep.join(parts)]. *)
Fixpoint join (sep : string) (parts : list string) : string :=
  match parts with
  | [] => EmptyString
  | [p] => p
  | p :: rest => p +:+ sep +:+ join sep rest
  end.

(** *** MapManager *)

Section Managers.
Context `{Env}.
Local Open Scope Z_scope.

Definition get_tile_url_base (tile_coord : coord) (zoom : Z) : M string :=
  s ← get_self;
  mt ← attr "maptype" (maptype s);
  mret (server s +:+ "/" +:+ fmt_s mt +:+ "/" +:+ fmt_d zoom +:+ "/"
        +:+ fmt_d_num (coord_0 tile_coord) +:+ "/"
        +:+ fmt_d_num (coord_1 tile_coord) +:+ ".png").

(** One marker ["%s,%s" % (round(z[0], 6), round(z[1], 6))]; the
    coordinates are integers here, so rounding only converts them. *)
Definition marker_str (z : value) : result string :=
  match z with
  | VTuple l | VList l =>
      match l with
      | a :: b :: _ =>
          match as_int a, as_int b with
          | Some x, Some y =>
              Ok (str_float (IZR x) +:+ "," +:+ str_float (IZR y))
          | _, _ => Raise (TypeError "a float is required")
          end
      | _ => Raise (IndexError "index out of range")
      end
  | _ => Raise (TypeError "object has no attribute '__getitem__'")
  end.

Fixpoint markers_strs (l : list value) : result (list string) :=
  match l with
  | [] => Ok []
  | z :: rest =>
      m ← marker_str z;
      ms ← markers_strs rest;
      Ok (m :: ms)
  end.

(** [sum(bbox[0:2])/2.] and [sum(bbox[2:4])/2.]. *)
Definition center_of (bbox : coord) : R * R :=
  match bbox with
  | BBox minlat maxlat minlon maxlon =>
      ((minlat + maxlat) / 2, (minlon + maxlon) / 2)%R
  | Tile x y => (IZR (x + y) / 2, 0 / 2)%R
  end.

(** [GoogleManager.get_tile_url]. *)
Definition get_tile_url_google (bbox : coord) (zoom : Z) : M string :=
  s ← get_self;
  let center_url :=
    "center=" +:+ str_float (center_of bbox).1 +:+ ","
              +:+ str_float (center_of bbox).2 in
  let zoom_url := "zoom=" +:+ fmt_d zoom in
  sz ← attr "size" (size s);
  wh ← lift (percent_s2 sz);
  let size_url := "size=" +:+ wh.1 +:+ "x" +:+ wh.2 in
  sc ← attr "scale" (scale s);
  scs ← lift (percent_s1 sc);
  let scale_url := "scale=" +:+ scs in
  let format_url := "format=png8" in
  mt ← attr "maptype" (maptype s);
  mts ← lift (percent_s1 mt);
  let maptype_url := "maptype=" +:+ mts in
  st ← attr "style" (style s);
  style_url ← (if truthy st then
                 sts ← lift (percent_s1 st); mret ("style=" +:+ sts)
               else mret EmptyString);
  mk ← attr "markers" (markers s);
  markers_url ← (if truthy mk then
                   match mk with
                   | VTuple l | VList l =>
                       ms ← lift (markers_strs l);
                       mret ("markers=" +:+ join "|" ms)
                   | _ => raise (TypeError "object is not iterable")
                   end
                 else mret EmptyString);
  pt ← attr "paths" (paths s);
  paths_url ← (if truthy pt then
                 raise (NameError
                   "local variable 'paths' referenced before assignment")
               else mret EmptyString);
  let params_url :=
    join "&" [center_url; zoom_url; size_url; scale_url; format_url;
              maptype_url; style_url; markers_url; paths_url] in
  let full_url := server s +:+ "&" +:+ params_url in
  mret (strip_last_amp (collapse_amp full_url)).

(** [self.get_tile_url(...)]: the method of the object's class. *)
Definition get_tile_url (tile_coord : coord) (zoom : Z) : M string :=
  s ← get_self;
  match class_of s with
  | GoogleManagerClass => get_tile_url_google tile_coord zoom
  | _ => get_tile_url_base tile_coord zoom
  end.

Definition get_local_filename (tile_coord : coord) (zoom : Z) : M string :=
  s ← get_self;
  mt ← attr "maptype" (maptype s);
  mret (path_join (cache s)
          (cache_prefix s +:+ fmt_s mt +:+ "_" +:+ fmt_d zoom +:+ "_"
           +:+ fmt_d_num (coord_0 tile_coord) +:+ "_"
           +:+ fmt_d_num (coord_1 tile_coord) +:+ ".png")).

(** The transfer itself: the outside world answers, and what arrived is
    written to [filename]. *)
Definition transfer (url filename : string) : M unit :=
  fun w =>
    let w1 := mkWorld (self w) (files w) (S (fetches w)) (next_id w)
                      (trace w) (stdout w) in
    match http_get (fetches w) url with
    | Fetched body =>
        (Ok tt, mkWorld (self w1) (<[filename := body]> (files w1))
                        (fetches w1) (next_id w1) (trace w1) (stdout w1))
    | FetchFailed e None => (Raise e, w1)
    | FetchFailed e (Some body) =>
        (Raise e, mkWorld (self w1) (<[filename := body]> (files w1))
                          (fetches w1) (next_id w1) (trace w1) (stdout w1))
    end.

(** [urllib.urlretrieve(url, filename=filename)]. *)
Definition urlretrieve (url filename : string) : M unit :=
  log (EvFetch url filename) ;;
  transfer url filename.

(** [os.path.isfile]. *)
Definition isfile (filename : string) : M bool :=
  w ← get_world;
  mret (bool_decide (is_Some (files w !! filename))).

Definition retrieve_tile_image (tile_coord : coord) (zoom : Z) : M string :=
  log (EvRetrieve tile_coord zoom) ;;
  filename ← get_local_filename tile_coord zoom;
  present ← isfile filename;
  (if negb present then
     url ← get_tile_url tile_coord zoom;
     try_except (urlretrieve url filename)
       (fun e => raise (Exception
          ("Unable to retrieve URL: " +:+ url +:+ newline +:+ str_exn e)))
   else mret tt) ;;
  mret filename.

(** The options [color] and [overwrite], read the same way by every
    [create_map]. *)
Definition read_color (kwargs : gmap string value) : M unit :=
  let color := kwargs_get kwargs "color" in
  color' ← (if truthy color then
              if negb (isinstance_str color)
                 || negb (in_strs color ["color"; "bw"]) then
                print "Wrong color specification, must be 'color' or 'bw'." ;;
                print "Defaulting to 'color'" ;;
                mret (VStr "color")
              else mret color
            else mret color);
  let md := if in_strs color' ["bw"] then "L" else "RGBA" in
  m ← the_manager;
  set_manager (mkImageManager (image m) md).

Definition read_overwrite (kwargs : gmap string value) (msg : string)
  : M bool :=
  match kwargs_get kwargs "overwrite" with
  | VNone => mret true
  | VBool b => mret b
  | _ => raise (Exception msg)
  end.

Definition bbox : Type := R * R * R * R.

(** [MapManager.create_map]. *)
Definition MapManager_create_map (box : bbox) (zoom : Z)
    (kwargs : gmap string value) : M (option Image * bbox) :=
  let '(minlat, maxlat, minlon, maxlon) := box in
  s ← get_self;
  (if bool_decide (manager s = None) then
     raise (Exception "No ImageManager was specified, cannot create image.")
   else mret tt) ;;
  read_color kwargs ;;
  overwrite ← read_overwrite kwargs
                 "Invalid 'overwrite' argument, must be True/False.";
  topleft ← lift (get_tile_coord minlon maxlat zoom);
  let '(minX, minY) := topleft in
  bottomright ← lift (get_tile_coord maxlon minlat zoom);
  let '(maxX, maxY) := bottomright in
  let '(new_maxlat, new_minlon) := tile_nw_latlon topleft zoom in
  let '(new_minlat, new_maxlon) := tile_nw_latlon (maxX + 1, maxY + 1) zoom in
  let pix_width := (maxX - minX + 1) * 256 in
  let pix_height := (maxY - minY + 1) * 256 in
  prepare_image pix_width pix_height overwrite ;;
  for_each (range minX (maxX + 1)) (fun x =>
    for_each (range minY (maxY + 1)) (fun y =>
      fname ← retrieve_tile_image (Tile x y) zoom;
      let x_off := 256 * (x - minX) in
      let y_off := 256 * (y - minY) in
      paste_image_file fname (x_off, y_off))) ;;
  img ← get_image;
  mret (img, (new_minlat, new_maxlat, new_minlon, new_maxlon)).

(** [StamenManager.create_map]. *)
Definition StamenManager_create_map (box : bbox) (zoom : Z)
    (kwargs : gmap string value) : M (option Image * bbox) :=
  let mt := kwargs_get kwargs "maptype" in
  mt' ← (if truthy mt then
           if negb (isinstance_str mt)
              || negb (in_strs mt ["terrain"; "watercolor"; "toner"]) then
             raise (ValueError
               "Invalid maptype specified, must be 'terrain', 'watercolor', or 'toner'.")
           else mret mt
         else mret (VStr "terrain"));
  set_maptype mt' ;;
  MapManager_create_map box zoom kwargs.


End Managers.

(** *** GoogleManager.create_map *)

Section Google.
Context `{Env}.
Local Open Scope Z_scope.

(** [t[i]] on a tuple. *)
Definition tuple_item (t : value) (i : nat) : M value :=
  match t with
  | VTuple l | VList l =>
      match l !! i with
      | Some v => mret v
      | None => raise (IndexError "tuple index out of range")
      end
  | _ => raise (TypeError "object has no attribute '__getitem__'")
  end.

(** An operand of integer arithmetic. *)
Definition int_operand (v : value) : M Z :=
  match as_int v with
  | Some n => mret n
  | None => raise (TypeError "unsupported operand type(s)")
  end.

Definition all_in_bounds (v : value) : bool :=
  match v with
  | VTuple l => forallb gt0_le640 l
  | _ => false
  end.

Definition GoogleManager_create_map (box : bbox) (zoom : Z)
    (kwargs : gmap string value) : M (option Image * bbox) :=
  let '(minlat, maxlat, minlon, maxlon) := box in
  let mt := kwargs_get kwargs "maptype" in
  set_maptype mt ;;
  (if truthy mt then
     if negb (isinstance_str mt)
        || negb (in_strs mt ["terrain"; "satellite"; "roadmap"; "hybrid"]) then
       raise (ValueError
         "Invalid maptype specified, must be 'terrain', 'satellite', roadmap, or 'hybrid'.")
     else mret tt
   else set_maptype (VStr "terrain")) ;;
  let sz := kwargs_get kwargs "size" in
  set_size sz ;;
  (if truthy sz then
     if negb (isinstance_tuple sz) || negb (all_in_bounds sz) then
       raise (ValueError "Invalid size parameter, must be < 640x640")
     else mret tt
   else set_size (VTuple [VInt 256; VInt 256])) ;;
  let sc := kwargs_get kwargs "scale" in
  set_scale sc ;;
  (if truthy sc then
     if negb (in_ints sc [1; 2; 4]) then
       raise (ValueError "Invalid scale parameter, must be 1, 2, or 4")
     else mret tt
   else set_scale (VInt 2)) ;;
  let sty := kwargs_get kwargs "style" in
  set_style sty ;;
  (if truthy sty && negb (isinstance_str sty) then
     raise (ValueError "Invalid style specified, must be str.")
   else mret tt) ;;
  let mk := kwargs_get kwargs "markers" in
  set_markers mk ;;
  (if truthy mk then
     raise (NameError "global name 'markers' is not defined")
   else mret tt) ;;
  let pt := kwargs_get kwargs "paths" in
  set_paths pt ;;
  (if truthy pt then
     raise (NameError "global name 'paths' is not defined")
   else mret tt) ;;
  s ← get_self;
  (if bool_decide (manager s = None) then
     raise (Exception "No ImageManager was specified, cannot create image.")
   else mret tt) ;;
  read_color kwargs ;;
  overwrite ← read_overwrite kwargs
                 "Invalid overwrite argument, must be True or False.";
  self_scale ← attr "scale" (scale s);
  self_size ← attr "size" (size s);
  k ← int_operand self_scale;
  size1 ← tuple_item self_size 1;
  n1 ← int_operand size1;
  let pix_width := k * n1 in
  size0 ← tuple_item self_size 0;
  n0 ← int_operand size0;
  let pix_height := k * n0 in
  prepare_image pix_width pix_height overwrite ;;
  fname ← retrieve_tile_image (BBox minlat maxlat minlon maxlon) zoom;
  paste_image_file fname (0, 0) ;;
  let centX := ((minlon + maxlon) / 2)%R in
  let centY := ((minlat + maxlat) / 2)%R in
  nw ← lift (adjust.XYToLL ((- n0) `div` 2) ((- n1) `div` 2) centX centY zoom);
  let '(new_minlon, new_maxlat) := nw in
  se ← lift (adjust.XYToLL (n0 `div` 2) (n1 `div` 2) centX centY zoom);
  let '(new_maxlon, new_minlat) := se in
  img ← get_image;
  mret (img, (new_minlat, new_maxlat, new_minlon, new_maxlon)).

End Google.

(** *** Construction *)

(** What [__init__] asks the operating system. *)
Record OS : Type := mkOS {
  isdir : string -> bool;
  makedirs : string -> bool;
  access_rw : string -> bool;
  getenv : string -> option string
}.

(** [os.getenv(name) or rest]. *)
Definition getenv_or (os : OS) (name : string) (rest : string) : string :=
  match getenv os name with
  | Some v => if String.eqb v EmptyString then rest else v
  | None => rest
  end.

(** The cache directory chosen by [MapManager.__init__], with the lines
    it prints. *)
Definition resolve_cache (os : OS) (cache_arg : value)
  : list string * result string :=
  let first : list string * result (option string) :=
    if truthy cache_arg then
      match cache_arg with
      | VStr c =>
          if negb (isdir os c) then
            if makedirs os c then (["Created cache dir " +:+ c], Ok (Some c))
            else (["Could not make cache dir " +:+ c], Ok None)
          else if negb (access_rw os c) then
            (["Insufficient privileges on cache dir " +:+ c], Ok None)
          else ([], Ok (Some c))
      | _ => ([], Raise (TypeError "coercing to Unicode: need string or buffer"))
      end
    else ([], Ok None) in
  match first with
  | (out, Raise e) => (out, Raise e)
  | (out, Ok (Some c)) => (out, Ok c)
  | (out, Ok None) =>
      let tmp :=
        getenv_or os "TMPDIR" (getenv_or os "TMP" (getenv_or os "TEMP" "/tmp")) in
      let out' := out ++ ["Using " +:+ tmp +:+ " to cache maptiles."] in
      if negb (access_rw os tmp) then
        (out' ++ ["Insufficient access to " +:+ tmp +:+ "."],
         Raise (Exception "Unable to find/create/use maptile cache directory."))
      else (out', Ok tmp)
  end.

(** The server chosen by [MapManager.__init__]; [md5.update] accepts
    strings only. *)
Definition resolve_server (server_arg : value) : result string :=
  if truthy server_arg then
    match server_arg with
    | VStr s => Ok s
    | _ => Raise (TypeError "must be string or buffer")
    end
  else Ok "http://tile.openstreetmap.org".

(** ['mappie-%s-' % md5.hexdigest()[:5]]. *)
Definition make_cache_prefix (server_url : string) : string :=
  "mappie-" +:+ String.substring 0 5 (hashlib.md5_hexdigest server_url) +:+ "-".

(** [MapManager.__init__], run for an object of class [cls]. *)
Definition MapManager_init (cls : klass) (os : OS)
    (kwargs : gmap string value) : list string * result MapManager :=
  let '(out, rc) := resolve_cache os (kwargs_get kwargs "cache") in
  (out,
   c ← rc;
   srv ← resolve_server (kwargs_get kwargs "server");
   Ok (mkMapManager cls c srv (make_cache_prefix srv)
         (Some (mkImageManager None "RGBA")) None None None None None None)).

(** [OSMManager] inherits [__init__]. *)
Definition OSMManager_init : OS -> gmap string value
                             -> list string * result MapManager :=
  MapManager_init OSMManagerClass.

Definition with_server (srv : string) (s : MapManager) : MapManager :=
  mkMapManager (class_of s) (cache s) srv (cache_prefix s) (manager s)
               (maptype s) (size s) (scale s) (style s) (markers s) (paths s).

(** [StamenManager.__init__]. *)
Definition StamenManager_init (os : OS) (kwargs : gmap string value)
  : list string * result MapManager :=
  let '(out, r) := MapManager_init StamenManagerClass os kwargs in
  (out, s ← r; Ok (with_server "http://tile.stamen.com" s)).

(** [GoogleManager.__init__]. *)
Definition GoogleManager_init (os : OS) (kwargs : gmap string value)
  : list string * result MapManager :=
  let '(out, r) := MapManager_init GoogleManagerClass os kwargs in
  (out,
   s ← r;
   let language := kwargs_get kwargs "language" in
   language' ← (if truthy language then
                  match language with
                  | VStr l => Ok ("language=" +:+ l)
                  | _ => Raise (Exception
                           "Invalid language specification, must be str.")
                  end
                else Ok EmptyString);
   let region := kwargs_get kwargs "region" in
   region' ← (if truthy region then
                match region with
                | VStr r => Ok ("region=" +:+ r)
                | _ => Raise (Exception
                         "Invalid region specification, must be str.")
                end
              else Ok EmptyString);
   let sensor := kwargs_get kwargs "sensor" in
   sensor' ← (if truthy sensor then
                match sensor with
                | VBool _ => Ok "sensor=true"
                | _ => Raise (Exception
                         "Invalid sensor specification, must be True or False.")
                end
              else Ok "sensor=false");
   Ok (with_server
         ("http://maps.googleapis.com/maps/api/staticmap?" +:+ language'
          +:+ "&" +:+ region' +:+ "&" +:+ sensor') s)).

End sources.


(** ** Vocabulary of the statements *)

Import Py sources.

(** The world after one more logged call. *)
Definition logged (ev : event) (w : World) : World :=
  mkWorld (self w) (files w) (fetches w) (next_id w) (trace w ++ [ev])
          (stdout w).

(** [sub] occurs in [s]. *)
Definition contains (sub s : string) : Prop :=
  exists pre post : string, s = pre +:+ (sub +:+ post).

(** The tiles asked of [retrieve_tile_image] in a trace, in order. *)
Definition requested_tiles (tr : list event) : list (Z * Z) :=
  omap (fun ev => match ev with
                  | EvRetrieve (Tile x y) _ => Some (x, y)
                  | _ => None
                  end) tr.

(** The downloads started in a trace. *)
Definition downloads (tr : list event) : list (string * string) :=
  omap (fun ev => match ev with
                  | EvFetch url filename => Some (url, filename)
                  | _ => None
                  end) tr.

(** The images created in a trace. *)
Definition created (tr : list event) : list (string * Z * Z) :=
  omap (fun ev => match ev with
                  | EvCreateImage md width height => Some (md, width, height)
                  | _ => None
                  end) tr.

(** The tile rectangle [minX..maxX] by [minY..maxY], in the order of the
    two loops of [create_map]. *)
Definition tile_grid (minX minY maxX maxY : Z) : list (Z * Z) :=
  x ← range minX (maxX + 1); y ← range minY (maxY + 1); [(x, y)].

(** The image held by the image manager of a world. *)
Definition current_image (w : World) : option Image :=
  m ← manager (self w); image m.

(** The file name the claim of the cache layout describes: the hash
    prefix itself, a dash, and the tile key. *)
Definition spec_cache_path (cache_dir server_url mt : string)
    (zoom x y : Z) : string :=
  path_join cache_dir
    (String.substring 0 5 (hashlib.md5_hexdigest server_url) +:+ "-" +:+ mt
     +:+ "_" +:+ fmt_d zoom +:+ "_" +:+ fmt_d x +:+ "_" +:+ fmt_d y
     +:+ ".png").

(** The file name [get_local_filename] produces for a manager whose
    prefix was made from [server_url]. *)
Definition mappie_cache_path (cache_dir server_url mt : string)
    (zoom x y : Z) : string :=
  path_join cache_dir
    ("mappie-" +:+ String.substring 0 5 (hashlib.md5_hexdigest server_url)
     +:+ "-" +:+ mt
     +:+ "_" +:+ fmt_d zoom +:+ "_" +:+ fmt_d x +:+ "_" +:+ fmt_d y
     +:+ ".png").

(** A computation that only reads the attributes of [self]: it leaves
    the world as it is, and its result depends on [self] alone. *)
Definition reads_self {A} (m : M A) : Prop :=
  forall w : World,
    (m w).2 = w /\ forall w' : World, self w' = self w -> (m w').1 = (m w).1.

(** Two states of a manager that differ at most in the image manager. *)
Definition same_config (s s' : MapManager) : Prop :=
  class_of s' = class_of s /\ cache s' = cache s /\ server s' = server s /\
  cache_prefix s' = cache_prefix s /\ maptype s' = maptype s /\
  size s' = size s /\ scale s' = scale s /\ style s' = style s /\
  markers s' = markers s /\ paths s' = paths s.

(** The cache file of tile [(x, y)] for a manager whose map type is the
    string [mt]. *)
Definition tile_filename (s : MapManager) (mt : string) (zoom x y : Z)
  : string :=
  path_join (cache s)
    (cache_prefix s +:+ mt +:+ "_" +:+ fmt_d zoom +:+ "_" +:+ fmt_d x
     +:+ "_" +:+ fmt_d y +:+ ".png").

(** What a pass over [tiles] that pastes [items] changes between two
    worlds: the pasted files are appended to the image, the tiles to the
    requests, and no image is created. *)
Record stitched (tiles : list (Z * Z)) (items : list (string * (Z * Z)))
    (w w' : World) : Prop := mkStitched {
  st_config : same_config (self w) (self w');
  st_image : forall m img,
    manager (self w) = Some m -> image m = Some img ->
    manager (self w')
    = Some (mkImageManager
              (Some (mkImage (img_id img) (img_mode img) (img_width img)
                             (img_height img) (img_pastes img ++ items)))
              (mode m));
  st_requested :
    requested_tiles (trace w') = requested_tiles (trace w) ++ tiles;
  st_created : created (trace w') = created (trace w);
  st_next : next_id w' = next_id w
}.

(** The paste [create_map] makes for tile [(x, y)]. *)
Definition tile_paste (s : MapManager) (mt : string) (zoom minX minY : Z)
    (xy : Z * Z) : string * (Z * Z) :=
  (tile_filename s mt zoom xy.1 xy.2,
   (256 * (xy.1 - minX), 256 * (xy.2 - minY))%Z).

(** A machine on which every directory is usable and no variable of the
    environment is set; collaborators that always succeed; a world with
    an empty cache around a manager. *)
Definition sample_os : OS :=
  mkOS (fun _ => true) (fun _ => true) (fun _ => true) (fun _ => None).

Definition sample_env : Env :=
  mkEnv (fun _ _ => Fetched "png") (fun _ => Ok tt)
        (fun _ => "0.0") (fun _ => "()").

Definition world_of (s : MapManager) : World := mkWorld s ∅ 0 0 [] [].

(** The Mercator ordinate of a latitude in pixel units at the
    reference zoom, before [LatToY] rounds it. *)
Definition merc_pixel (lat : R) : R :=
  (IZR adjust.OFFSET
   - adjust.RADIUS
     * ln ((1 + sin (radians lat)) / (1 - sin (radians lat))) / 2)%R.

(** Collaborators that never fail: every download arrives, and PIL
    opens every file. *)
Definition reliable `{Env} : Prop :=
  (forall (k : nat) (url : string), exists body, http_get k url = Fetched body)
  /\ (forall body : string, pil_open body = Ok tt).

(** The call leaves [overwrite] at its default or passes [True]. *)
Definition overwrites (kwargs : gmap string value) : Prop :=
  kwargs !! "overwrite" = None \/ kwargs !! "overwrite" = Some (VBool true).

(** The manager [OSMManager()] builds on [sample_os]. *)
Definition osm_manager : MapManager :=
  mkMapManager OSMManagerClass "/tmp" "http://tile.openstreetmap.org"
    "mappie-6ef42-" (Some (mkImageManager None "RGBA"))
    None None None None None None.

(** A world in which the tile loop can run: an image is prepared, the
    map type is the string [mt], and the tile URL is that of the tile
    managers. *)
Definition ready (mt : string) (w : World) : Prop :=
  (exists m img, manager (self w) = Some m /\ image m = Some img) /\
  maptype (self w) = Some (VStr mt) /\
  class_of (self w) <> GoogleManagerClass.

(** [prepare_image] will go through: the call overwrites, or there is
    no image yet. *)
Definition prepares (kwargs : gmap string value) (m : ImageManager) : Prop :=
  overwrites kwargs \/
  (kwargs !! "overwrite" = Some (VBool false) /\ image m = None).

(** The box the tile rectangle covers: from the north-west corner of
    tile [(minX, minY)] to that of tile [(maxX + 1, maxY + 1)], in the
    order [(minlat, maxlat, minlon, maxlon)]. *)
Definition covered_box (minX minY maxX maxY zoom : Z) : bbox :=
  ((tile_nw_latlon (maxX + 1, maxY + 1)%Z zoom).1,
   (tile_nw_latlon (minX, minY) zoom).1,
   (tile_nw_latlon (minX, minY) zoom).2,
   (tile_nw_latlon (maxX + 1, maxY + 1)%Z zoom).2).

(** The message of [prepare_image] when an image is there already. *)
Definition already_prepared : string :=
  "Image already prepared. Set 'overwrite' to True if you want to create a new image.".

(** [OSMManager()] on [sample_os] once [create_map] has set its map
    type, alone in a world with an empty cache; and the same manager
    holding an image made earlier. *)
Definition osm_world : World :=
  world_of (mkMapManager OSMManagerClass "/tmp" "http://tile.openstreetmap.org"
              "mappie-6ef42-" (Some (mkImageManager None "RGBA"))
              (Some (VStr "")) None None None None None).

Definition old_image : Image := mkImage 0 "RGBA" 256 256 [].

Definition osm_world_with_image : World :=
  mkWorld (mkMapManager OSMManagerClass "/tmp" "http://tile.openstreetmap.org"
             "mappie-6ef42-" (Some (mkImageManager (Some old_image) "RGBA"))
             (Some (VStr "")) None None None None None)
          ∅ 0 1 [] [].

(** The value an option of [GoogleManager.create_map] ends with: the
    one passed, or the default when that is false in a condition. *)
Definition effective (v default : value) : value :=
  if truthy v then v else default.

(** What the checks of [GoogleManager.create_map] let through. *)
Definition maptype_accepted (v : value) : Prop :=
  truthy v = true ->
  isinstance_str v = true /\
  in_strs v ["terrain"; "satellite"; "roadmap"; "hybrid"] = true.

Definition size_accepted (v : value) : Prop :=
  truthy v = true -> isinstance_tuple v = true /\ all_in_bounds v = true.

Definition scale_accepted (v : value) : Prop :=
  truthy v = true -> in_ints v [1; 2; 4]%Z = true.

Definition style_accepted (v : value) : Prop :=
  truthy v = true -> isinstance_str v = true.

(** The message of the scale check. *)
Definition scale_message : string :=
  "Invalid scale parameter, must be 1, 2, or 4".

(** The attributes the checks have assigned when they are through. *)
Definition configured (mt sz sc sty mk pt : value) (w : World) : World :=
  (set_paths pt (set_markers mk (set_style sty (set_scale sc
     (set_size sz (set_maptype mt w).2).2).2).2).2).2.

(** [GoogleManager()] on [sample_os], alone in a world with an empty
    cache. *)
Definition google_manager : MapManager :=
  mkMapManager GoogleManagerClass "/tmp"
    "http://maps.googleapis.com/maps/api/staticmap?&&sensor=false"
    "mappie-6ef42-" (Some (mkImageManager None "RGBA"))
    None None None None None None.

Definition google_world : World := world_of google_manager.

(** ** Vocabulary of the further properties *)

(** [StamenManager()] on [sample_os]; a world around it once
    [create_map] has set the default map type; and [GoogleManager()] once
    the checks of [create_map] have assigned the defaults. *)
Definition stamen_manager : MapManager :=
  mkMapManager StamenManagerClass "/tmp" "http://tile.stamen.com"
    "mappie-6ef42-" (Some (mkImageManager None "RGBA"))
    None None None None None None.

Definition stamen_world : World :=
  (set_maptype (VStr "terrain") (world_of stamen_manager)).2.

Definition google_terrain_world : World :=
  configured (VStr "terrain") (VTuple [VInt 256; VInt 256]) (VInt 2)
    VNone VNone VNone google_world.

(** The cache holds the files of these tiles. *)
Definition cached (s : MapManager) (mt : string) (zoom : Z)
    (tiles : list (Z * Z)) (w : World) : Prop :=
  forall t : Z * Z,
    t ∈ tiles -> is_Some (files w !! tile_filename s mt zoom t.1 t.2).

(** No file of [w] is missing from [w']. *)
Definition keeps_files (w w' : World) : Prop :=
  forall f : string, is_Some (files w !! f) -> is_Some (files w' !! f).

(** What a pass over the tiles may change: the image gets the pastes,
    the cache may grow, the configuration stays. *)
Record pass (mt : string) (zoom minX minY : Z) (done : list (Z * Z))
    (w0 w : World) : Prop := mkPass {
  ps_config : same_config (self w0) (self w);
  ps_image : forall m img,
    manager (self w0) = Some m -> image m = Some img ->
    manager (self w)
    = Some (mkImageManager
              (Some (mkImage (img_id img) (img_mode img) (img_width img)
                       (img_height img)
                       (img_pastes img
                        ++ (tile_paste (self w0) mt zoom minX minY <$> done))))
              (mode m));
  ps_cached : cached (self w0) mt zoom done w;
  ps_keeps : keeps_files w0 w;
  ps_next : next_id w = next_id w0;
  ps_created : created (trace w) = created (trace w0)
}.

(** A machine without network, and a world whose cache holds the two
    tiles of the equator at zoom 1. *)
Definition offline_env : Env :=
  mkEnv (fun _ _ => FetchFailed (IOError "offline") None) (fun _ => Ok tt)
        (fun _ => "0.0") (fun _ => "()").

Definition warm_world : World :=
  mkWorld (self osm_world)
    {[ "/tmp/mappie-6ef42-_1_0_1.png" := "png";
       "/tmp/mappie-6ef42-_1_1_1.png" := "png" ]}
    0 0 [] [].

(** Two ampersands in a row somewhere in a string; an ampersand at its
    end. *)
Fixpoint double_amp (s : string) : bool :=
  match s with
  | EmptyString => false
  | String c rest =>
      (Ascii.eqb c "&"%char
       && match rest with
          | String c' _ => Ascii.eqb c' "&"%char
          | EmptyString => false
          end)
      || double_amp rest
  end.

Fixpoint final_amp (s : string) : bool :=
  match s with
  | EmptyString => false
  | String c EmptyString => Ascii.eqb c "&"%char
  | String _ rest => final_amp rest
  end.

(** Every value a computation returns satisfies [P]. *)
Definition returns {A} (P : A -> Prop) (m : M A) : Prop :=
  forall (w w' : World) (a : A), m w = (Ok a, w') -> P a.

(* ================================================================= *)
(** * Properties *)

(** ** Rounding *)

Section Rounding.
Local Open Scope R_scope.






End Rounding.

(** ** Pixel coordinates of [adjust.py] *)

Section Pixels.
Import adjust.
Local Open Scope R_scope.





(** Mercator ordinate and its inverse. *)
Lemma half_angle_facts (phi : R) :
  - (PI / 2) < phi < PI / 2 ->
  let theta := PI / 4 - phi / 2 in
  0 < sin theta /\ 0 < cos theta /\
  1 + sin phi = 2 * cos theta * cos theta /\
  1 - sin phi = 2 * sin theta * sin theta.
Proof.
  intros Hphi theta.
  assert (Htheta : 0 < theta < PI / 2) by (unfold theta; lra).
  assert (Hs : sin phi = cos (2 * theta)).
  { rewrite <- cos_shift. f_equal. unfold theta. lra. }
  split; [apply sin_gt_0; lra|].
  split; [apply cos_gt_0; lra|].
  split.
  - rewrite Hs, cos_2a_cos. lra.
  - rewrite Hs, cos_2a_sin. lra.
Qed.

Lemma merc_arg_pos (phi : R) :
  - (PI / 2) < phi < PI / 2 ->
  1 - sin phi <> 0 /\ 0 < (1 + sin phi) / (1 - sin phi).
Proof.
  intros Hphi.
  destruct (half_angle_facts phi Hphi) as (Hs & Hc & H1 & H2).
  set (theta := PI / 4 - phi / 2) in *.
  assert (0 < 1 - sin phi) by (rewrite H2; nra).
  assert (0 < 1 + sin phi) by (rewrite H1; nra).
  split; [lra|]. now apply Rdiv_lt_0_compat.
Qed.




Lemma radians_range (lat : R) :
  -90 < lat < 90 -> - (PI / 2) < radians lat < PI / 2.
Proof.
  intros H. unfold radians. pose proof PI_RGT_0. split; nra.
Qed.


Lemma LatToY_ok (lat : R) :
  -90 < lat < 90 -> LatToY lat = Ok (round (merc_pixel lat)).
Proof.
  intros Hlat.
  destruct (merc_arg_pos _ (radians_range _ Hlat)) as [Hden Hq].
  unfold LatToY, fdiv, Py.log.
  destruct (Req_dec_T _ 0) as [E | _]; [contradiction|]. cbn.
  destruct (Rlt_dec 0 _) as [_ | N]; [|contradiction]. reflexivity.
Qed.


End Pixels.

(** ** Numeric bounds *)

Section Bounds.
Local Open Scope R_scope.




End Bounds.

(** ** Tile arithmetic *)

Section Tiles.
Local Open Scope R_scope.




Lemma tan_sec_pos (phi : R) :
  - (PI / 2) < phi < PI / 2 ->
  cos phi <> 0 /\ 0 < tan phi + 1 / cos phi.
Proof.
  intros Hphi.
  assert (Hc : 0 < cos phi) by (apply cos_gt_0; lra).
  destruct (half_angle_facts phi Hphi) as (Hs' & Hc' & H1 & _).
  split; [lra|].
  replace (tan phi + 1 / cos phi) with ((1 + sin phi) / cos phi)
    by (unfold tan; field; lra).
  apply Rdiv_lt_0_compat; [rewrite H1; nra | assumption].
Qed.










Lemma get_tile_coord_ok (lon lat : R) (z : Z) :
  -90 < lat < 90 ->
  get_tile_coord lon lat z
  = Ok (int ((lon + 180) / 360 * pow2 z),
        int ((1 - ln (tan (lat * PI / 180) + 1 / cos (lat * PI / 180)) / PI)
             / 2 * pow2 z)).
Proof.
  intros Hlat. pose proof PI_RGT_0 as Hpi.
  assert (Hphi : - (PI / 2) < lat * PI / 180 < PI / 2) by (split; nra).
  destruct (tan_sec_pos _ Hphi) as [Hc Ha].
  unfold get_tile_coord, fdiv, Py.log.
  destruct (Req_dec_T _ 0) as [E | _]; [contradiction|]. cbn.
  destruct (Rlt_dec 0 _) as [_ | N]; [|contradiction]. reflexivity.
Qed.


End Tiles.

(** ** Running the managers *)

Ltac unfold_M :=
  unfold mbind, M_bind, mret, M_ret, get_self, get_world, set_self, raise,
    lift, log, print, attr, try_except, fresh_id, isfile in *.

Ltac run := repeat (progress (unfold_M; cbn)).

Lemma append_nil_r (s : string) : s +:+ "" = s.
Proof.
  induction s as [|c s IH]; [reflexivity|].
  change (String c (s +:+ "") = String c s). now rewrite IH.
Qed.

Lemma append_assoc (a b c : string) : (a +:+ b) +:+ c = a +:+ (b +:+ c).
Proof.
  induction a as [|x a IH]; [reflexivity|].
  change (String x ((a +:+ b) +:+ c) = String x (a +:+ (b +:+ c))).
  now rewrite IH.
Qed.

Lemma bind_ok {A B} (m : M A) (k : A -> M B) (w w' : World) (a : A) :
  m w = (Ok a, w') -> (m ≫= k) w = k a w'.
Proof. intros E. unfold mbind, M_bind. now rewrite E. Qed.

Lemma bind_raise {A B} (m : M A) (k : A -> M B) (w w' : World) (e : exn) :
  m w = (Raise e, w') -> (m ≫= k) w = (Raise e, w').
Proof. intros E. unfold mbind, M_bind. now rewrite E. Qed.

Lemma reads_ret {A} (a : A) : reads_self (mret a).
Proof. intros w. split; [reflexivity | intros; reflexivity]. Qed.

Lemma reads_raise {A} (e : exn) : reads_self (@raise A e).
Proof. intros w. split; [reflexivity | intros; reflexivity]. Qed.

Lemma reads_lift {A} (r : result A) : reads_self (lift r).
Proof. intros w. split; [reflexivity | intros; reflexivity]. Qed.

Lemma reads_get_self : reads_self get_self.
Proof. intros w. split; [reflexivity | intros w' E; cbn; now rewrite E]. Qed.

Lemma reads_attr {A} (name : string) (f : option A) : reads_self (attr name f).
Proof. destruct f; [apply reads_ret | apply reads_raise]. Qed.

Lemma reads_bind {A B} (m : M A) (k : A -> M B) :
  reads_self m -> (forall a, reads_self (k a)) -> reads_self (m ≫= k).
Proof.
  intros Hm Hk w. unfold mbind, M_bind.
  destruct (Hm w) as [Hm2 Hm1].
  destruct (m w) as [[a | e] w1] eqn:Em; cbn in Hm2; subst w1.
  - destruct (Hk a w) as [Hk2 Hk1]. split; [exact Hk2|].
    intros w' E. specialize (Hm1 w' E). destruct (Hm w') as [Hw' _].
    destruct (m w') as [r' w1']. cbn in *. subst. now apply Hk1.
  - split; [reflexivity|].
    intros w' E. specialize (Hm1 w' E). destruct (Hm w') as [Hw' _].
    destruct (m w') as [r' w1']. cbn in *. subst. reflexivity.
Qed.

Lemma reads_run {A} (m : M A) (w w' : World) (r : result A) :
  reads_self m -> self w' = self w -> (m w).1 = r -> m w' = (r, w').
Proof.
  intros Hm E <-. destruct (Hm w) as [_ H1]. destruct (Hm w') as [H2 _].
  rewrite (surjective_pairing (m w')). now rewrite H2, (H1 w' E).
Qed.

Ltac reads :=
  repeat first
    [ apply reads_bind; [|intros ?]
    | apply reads_ret | apply reads_raise | apply reads_lift
    | apply reads_get_self | apply reads_attr
    | match goal with
      | |- reads_self (if ?b then _ else _) => destruct b
      | |- reads_self (match ?x with _ => _ end) => destruct x
      end ].

(** ** Retrieving a tile *)

Section Runs.
Context `{Env}.

Lemma reads_get_local_filename (c : coord) (zoom : Z) :
  reads_self (get_local_filename c zoom).
Proof. unfold get_local_filename. reads. Qed.

Lemma reads_get_tile_url (c : coord) (zoom : Z) :
  reads_self (get_tile_url c zoom).
Proof.
  unfold get_tile_url, get_tile_url_base, get_tile_url_google. reads.
Qed.

(** Claim C3.  When the cache file of a tile exists,
    [retrieve_tile_image] returns its path and the only thing it does is
    to record the call: nothing is downloaded.  When the file does not
    exist, exactly one download of the tile's URL is started, and no
    other; if it succeeds the path is returned, and if it fails the call
    raises an [Exception] whose message contains the URL and the message
    of the failure. *)
Theorem retrieve_tile_image_cache_policy
    (c : coord) (zoom : Z) (w : World) (filename : string) :
  (get_local_filename c zoom w).1 = Ok filename ->
  (is_Some (files w !! filename) ->
   retrieve_tile_image c zoom w = (Ok filename, logged (EvRetrieve c zoom) w))
  /\
  (files w !! filename = None ->
   forall url : string, (get_tile_url c zoom w).1 = Ok url ->
   exists (r : result string) (w' : World),
     retrieve_tile_image c zoom w = (r, w') /\
     trace w' = trace w ++ [EvRetrieve c zoom; EvFetch url filename] /\
     fetches w' = S (fetches w) /\
     match http_get (fetches w) url with
     | Fetched _ => r = Ok filename
     | FetchFailed e _ =>
         let msg := "Unable to retrieve URL: " +:+ url +:+ newline +:+ str_exn e in
         r = Raise (Exception msg) /\ contains url msg /\ contains (str_exn e) msg
     end).
Proof.
  intros Hfn.
  assert (Hfn' : get_local_filename c zoom (logged (EvRetrieve c zoom) w)
                 = (Ok filename, logged (EvRetrieve c zoom) w)).
  { apply (reads_run _ w); [apply reads_get_local_filename | reflexivity | exact Hfn]. }
  split.
  - intros Hfile. unfold retrieve_tile_image.
    rewrite (bind_ok _ _ _ (logged (EvRetrieve c zoom) w) tt) by reflexivity.
    rewrite (bind_ok _ _ _ _ _ Hfn').
    run. rewrite bool_decide_eq_true_2 by assumption. reflexivity.
  - intros Hfile url Hurl. unfold retrieve_tile_image.
    rewrite (bind_ok _ _ _ (logged (EvRetrieve c zoom) w) tt) by reflexivity.
    rewrite (bind_ok _ _ _ _ _ Hfn').
    run. rewrite Hfile.
    rewrite bool_decide_eq_false_2 by (intros [? ?]; discriminate). cbn.
    rewrite (reads_run _ w (logged (EvRetrieve c zoom) w) _
               (reads_get_tile_url c zoom) eq_refl Hurl).
    unfold urlretrieve, transfer. run.
    destruct (http_get (fetches w) url) as [body | e [partial|]]; cbn.
    + eexists _, _. split; [reflexivity|]. cbn.
      rewrite <- app_assoc. auto.
    + eexists _, _. split; [reflexivity|]. cbn.
      rewrite <- app_assoc. repeat split; auto.
      * exists "Unable to retrieve URL: ", (newline +:+ str_exn e). reflexivity.
      * exists ("Unable to retrieve URL: " +:+ url +:+ newline), "".
        now rewrite append_nil_r, !append_assoc.
    + eexists _, _. split; [reflexivity|]. cbn.
      rewrite <- app_assoc. repeat split; auto.
      * exists "Unable to retrieve URL: ", (newline +:+ str_exn e). reflexivity.
      * exists ("Unable to retrieve URL: " +:+ url +:+ newline), "".
        now rewrite append_nil_r, !append_assoc.
Qed.

End Runs.

(** ** The cache file of a tile *)

Lemma MapManager_init_prefix (cls : klass) (os : OS) (kwargs : gmap string value)
    (out : list string) (s : MapManager) :
  MapManager_init cls os kwargs = (out, Ok s) ->
  cache_prefix s = make_cache_prefix (server s) /\ maptype s = None /\
  class_of s = cls /\ manager s = Some (mkImageManager None "RGBA").
Proof.
  unfold MapManager_init.
  destruct (resolve_cache os (kwargs_get kwargs "cache")) as [out' [c | e]];
    [|intros [= _ E]; discriminate E].
  destruct (resolve_server (kwargs_get kwargs "server")) as [srv | e];
    cbn; intros [= _ <-]; cbn; auto.
Qed.

Lemma length_append (a b : string) :
  String.length (a +:+ b) = (String.length a + String.length b)%nat.
Proof.
  induction a as [|c a IH]; [reflexivity|].
  change (S (String.length (a +:+ b)) = S (String.length a + String.length b)).
  now rewrite IH.
Qed.

Lemma md5_hexdigest_length (s : string) :
  String.length (hashlib.md5_hexdigest s) = 32%nat.
Proof.
  unfold hashlib.md5_hexdigest, hashlib.digest.
  destruct (foldl _ _ _) as [[[a b] c] d]. reflexivity.
Qed.

Lemma substring_length (n : nat) (s : string) :
  (n <= String.length s)%nat -> String.length (String.substring 0 n s) = n.
Proof.
  revert s. induction n as [|n IH]; intros [|c s] Hn; cbn in *;
    try reflexivity; try lia.
  rewrite IH; lia.
Qed.

Section CachePath.
Context `{Env}.

Lemma get_local_filename_tile (x y zoom : Z) (mt : string) (w : World) :
  maptype (self w) = Some (VStr mt) ->
  get_local_filename (Tile x y) zoom w
  = (Ok (tile_filename (self w) mt zoom x y), w).
Proof.
  intros Hmt. unfold get_local_filename. run. rewrite Hmt. reflexivity.
Qed.

(** Claim C7, as the code has it.  For a manager built by
    [MapManager.__init__], the cache file of tile [(x, y)] at [zoom] is
    the cache directory joined with
    [mappie-<prefix>-<maptype>_<zoom>_<x>_<y>.png], where [<prefix>] is
    the first five characters of the hexadecimal MD5 digest of the server
    [__init__] resolved: the name starts with the literal [mappie-]. *)
Theorem cache_path_layout (cls : klass) (os : OS) (kwargs : gmap string value)
    (out : list string) (s : MapManager) (w : World)
    (mt : string) (zoom x y : Z) :
  MapManager_init cls os kwargs = (out, Ok s) ->
  cache (self w) = cache s ->
  cache_prefix (self w) = cache_prefix s ->
  maptype (self w) = Some (VStr mt) ->
  get_local_filename (Tile x y) zoom w
  = (Ok (mappie_cache_path (cache s) (server s) mt zoom x y), w)
  /\ String.length (String.substring 0 5 (hashlib.md5_hexdigest (server s)))
     = 5%nat.
Proof.
  intros Hinit Hc Hp Hmt.
  destruct (MapManager_init_prefix _ _ _ _ _ Hinit) as (Hpre & _).
  split.
  - rewrite (get_local_filename_tile _ _ _ _ _ Hmt).
    unfold tile_filename, mappie_cache_path.
    rewrite Hc, Hp, Hpre. unfold make_cache_prefix.
    now rewrite !append_assoc.
  - apply substring_length. rewrite md5_hexdigest_length. lia.
Qed.

End CachePath.

Lemma cache_path_layout_witness :
  let w := world_of (mkMapManager OSMManagerClass "/tmp"
             "http://tile.openstreetmap.org" "mappie-6ef42-"
             (Some (mkImageManager None "RGBA"))
             (Some (VStr "")) None None None None None) in
  @get_local_filename sample_env (Tile 1 2) 3 w
  = (Ok (mappie_cache_path "/tmp" "http://tile.openstreetmap.org" "" 3 1 2), w)
  /\ String.length (String.substring 0 5
       (hashlib.md5_hexdigest "http://tile.openstreetmap.org")) = 5%nat.
Proof.
  apply (@cache_path_layout sample_env OSMManagerClass sample_os ∅
           ["Using /tmp to cache maptiles."] osm_manager);
    vm_compute; reflexivity.
Defined.

(** Claim C7 as stated fails: for [OSMManager()] the cache file of tile
    [(1, 2)] at zoom 3 is [/tmp/mappie-6ef42-_3_1_2.png], not
    [/tmp/6ef42-_3_1_2.png]. *)
Lemma cache_path_not_spec_form :
  (OSMManager_init sample_os ∅).2 = Ok osm_manager /\
  let w := (set_maptype (VStr "") (world_of osm_manager)).2 in
  (@get_local_filename sample_env (Tile 1 2) 3 w).1
  = Ok "/tmp/mappie-6ef42-_3_1_2.png" /\
  spec_cache_path (cache osm_manager) (server osm_manager) "" 3 1 2
  = "/tmp/6ef42-_3_1_2.png" /\
  (@get_local_filename sample_env (Tile 1 2) 3 w).1
  <> Ok (spec_cache_path (cache osm_manager) (server osm_manager) "" 3 1 2).
Proof.
  split; [vm_compute; reflexivity|].
  split; [vm_compute; reflexivity|].
  split; [vm_compute; reflexivity|].
  vm_compute. intros [=].
Qed.

(** ** Stitching the tiles: [create_map] *)

Lemma same_config_refl (s : MapManager) : same_config s s.
Proof. repeat split. Qed.

Lemma same_config_trans (s1 s2 s3 : MapManager) :
  same_config s1 s2 -> same_config s2 s3 -> same_config s1 s3.
Proof.
  unfold same_config. intros H1 H2.
  destruct H1 as (?&?&?&?&?&?&?&?&?&?), H2 as (?&?&?&?&?&?&?&?&?&?).
  repeat split; congruence.
Qed.

Lemma same_config_self (w w' : World) :
  self w' = self w -> same_config (self w) (self w').
Proof. intros ->. apply same_config_refl. Qed.

Lemma tile_filename_config (s s' : MapManager) (mt : string) (zoom x y : Z) :
  same_config s s' -> tile_filename s' mt zoom x y = tile_filename s mt zoom x y.
Proof.
  intros (_ & Hc & _ & Hp & _). unfold tile_filename. now rewrite Hc, Hp.
Qed.

Lemma requested_tiles_app (t1 t2 : list event) :
  requested_tiles (t1 ++ t2) = requested_tiles t1 ++ requested_tiles t2.
Proof. apply omap_app. Qed.

Lemma created_app (t1 t2 : list event) :
  created (t1 ++ t2) = created t1 ++ created t2.
Proof. apply omap_app. Qed.

Lemma stitched_frame (tiles : list (Z * Z)) (w w' : World) :
  self w' = self w -> next_id w' = next_id w ->
  created (trace w') = created (trace w) ->
  requested_tiles (trace w') = requested_tiles (trace w) ++ tiles ->
  stitched tiles [] w w'.
Proof.
  intros Hs Hn Hc Hr. split; auto using same_config_self.
  intros m img Hm Hi. rewrite Hs, Hm. f_equal.
  destruct m as [im md], img. cbn in *. subst im. now rewrite app_nil_r.
Qed.

Lemma stitched_refl (w : World) : stitched [] [] w w.
Proof. apply stitched_frame; auto. now rewrite app_nil_r. Qed.

Lemma stitched_trans (t1 t2 : list (Z * Z)) (i1 i2 : list (string * (Z * Z)))
    (w w1 w2 : World) :
  stitched t1 i1 w w1 -> stitched t2 i2 w1 w2 ->
  stitched (t1 ++ t2) (i1 ++ i2) w w2.
Proof.
  intros [C1 I1 R1 K1 N1] [C2 I2 R2 K2 N2]. split.
  - eapply same_config_trans; eassumption.
  - intros m img Hm Hi. specialize (I1 m img Hm Hi).
    rewrite (I2 _ _ I1 eq_refl). cbn. now rewrite app_assoc.
  - rewrite R2, R1. now rewrite app_assoc.
  - congruence.
  - congruence.
Qed.

Lemma stitched_ready (tiles : list (Z * Z)) (items : list (string * (Z * Z)))
    (mt : string) (w w' : World) :
  stitched tiles items w w' -> ready mt w -> ready mt w'.
Proof.
  intros [C I _ _ _] ((m & img & Hm & Hi) & Hmt & Hcl).
  destruct C as (Ecl & _ & _ & _ & Emt & _).
  split; [|split; congruence].
  eexists _, _. split; [apply (I m img Hm Hi) | reflexivity].
Qed.

Section CreateMap.
Context `{Env}.

Lemma get_tile_url_tile (x y zoom : Z) (mt : string) (w : World) :
  maptype (self w) = Some (VStr mt) ->
  class_of (self w) <> GoogleManagerClass ->
  exists url, get_tile_url (Tile x y) zoom w = (Ok url, w).
Proof.
  intros Hmt Hcl. unfold get_tile_url, get_tile_url_base. run.
  destruct (class_of (self w)); try contradiction; run; rewrite Hmt; eauto.
Qed.

Lemma retrieve_tile_image_run (c : coord) (zoom : Z) (w : World) :
  exists (r : result string) (w' : World),
    retrieve_tile_image c zoom w = (r, w') /\
    self w' = self w /\ next_id w' = next_id w /\
    created (trace w') = created (trace w) /\
    requested_tiles (trace w')
    = requested_tiles (trace w)
      ++ match c with Tile x y => [(x, y)] | _ => [] end /\
    (reliable -> forall fn url : string,
       (get_local_filename c zoom w).1 = Ok fn ->
       (get_tile_url c zoom w).1 = Ok url ->
       r = Ok fn /\ is_Some (files w' !! fn)).
Proof.
  set (w1 := logged (EvRetrieve c zoom) w).
  assert (Hcr : created (trace w1) = created (trace w)).
  { cbn. rewrite created_app. cbn. now rewrite app_nil_r. }
  assert (Hrq : requested_tiles (trace w1)
                = requested_tiles (trace w)
                  ++ match c with Tile x y => [(x, y)] | _ => [] end).
  { cbn. rewrite requested_tiles_app. cbn. now destruct c. }
  unfold retrieve_tile_image.
  rewrite (bind_ok _ _ _ w1 tt) by reflexivity.
  pose proof (reads_run _ w w1 _ (reads_get_local_filename c zoom) eq_refl eq_refl)
    as Hfn.
  destruct ((get_local_filename c zoom w).1) as [fn | e] eqn:Efn.
  2:{ rewrite (bind_raise _ _ _ _ _ Hfn). exists (Raise e), w1.
      do 5 (split; [first [reflexivity | assumption]|]). intros _ ? ? [=]. }
  rewrite (bind_ok _ _ _ _ _ Hfn). run.
  destruct (files w !! fn) as [body|] eqn:Efile.
  - rewrite bool_decide_eq_true_2 by eauto. cbn.
    exists (Ok fn), w1.
    do 5 (split; [first [reflexivity | assumption]|]).
    intros _ fn' url [= <-] _. cbn. rewrite Efile. eauto.
  - rewrite bool_decide_eq_false_2 by (intros [? ?]; discriminate). cbn.
    pose proof (reads_run _ w w1 _ (reads_get_tile_url c zoom) eq_refl eq_refl)
      as Hurl.
    destruct ((get_tile_url c zoom w).1) as [url | e] eqn:Eurl; rewrite Hurl.
    2:{ exists (Raise e), w1.
        do 5 (split; [first [reflexivity | assumption]|]). intros _ ? ? _ [=]. }
    unfold urlretrieve, transfer. run.
    destruct (http_get (fetches w) url) as [body | e [partial|]] eqn:Eget; cbn;
      (eexists _, _; split; [reflexivity|]; cbn;
       split; [reflexivity|]; split; [reflexivity|];
       split; [rewrite !created_app; cbn; now rewrite !app_nil_r|];
       split; [rewrite !requested_tiles_app; cbn; rewrite app_nil_r;
               now destruct c|]).
    + intros _ fn' url' [= <-] _. split; [reflexivity|].
      rewrite lookup_insert. destruct (decide (fn = fn)); [eauto | contradiction].
    + intros [Hget _] fn' url' _ [= <-].
      destruct (Hget (fetches w) url) as [b Hb]. congruence.
    + intros [Hget _] fn' url' _ [= <-].
      destruct (Hget (fetches w) url) as [b Hb]. congruence.
Qed.


Lemma paste_image_file_run (f : string) (xy : Z * Z) (w : World) :
  exists (r : result unit) (items : list (string * (Z * Z))) (w' : World),
    paste_image_file f xy w = (r, w') /\ stitched [] items w w' /\
    ((forall body : string, pil_open body = Ok tt) ->
     is_Some (files w !! f) ->
     is_Some (manager (self w) ≫= image) ->
     r = Ok tt /\ items = [(f, xy)]).
Proof.
  unfold paste_image_file, paste_image, load_image_file, the_manager,
    set_manager.
  run.
  destruct (manager (self w)) as [m|] eqn:Em; cbn.
  2:{ eexists _, [], _. split; [reflexivity|].
      split; [apply stitched_refl|]. intros _ _ [? [=]]. }
  destruct (image m) as [img|] eqn:Ei; cbn.
  2:{ eexists _, [], _. split; [reflexivity|].
      split; [apply stitched_refl|]. intros _ _ [? [=]]. }
  destruct (files w !! f) as [body|] eqn:Ef; cbn.
  2:{ eexists _, [], _. split; [reflexivity|].
      split; [apply stitched_refl|]. intros _ [? [=]]. }
  destruct (pil_open body) as [[] | e] eqn:Ep; cbn.
  2:{ eexists _, [], _. split; [reflexivity|].
      split; [apply stitched_refl|]. intros Hp. rewrite Hp in Ep. discriminate. }
  rewrite Em. cbn. rewrite Ei. cbn.
  eexists _, [(f, xy)], _. split; [reflexivity|]. split; [|auto].
  split; cbn.
  - repeat split.
  - intros m' img' Hm' Hi'. rewrite Em in Hm'. injection Hm' as <-. rewrite Ei in Hi'. now injection Hi' as <-.
  - rewrite requested_tiles_app. cbn. now rewrite !app_nil_r.
  - rewrite created_app. cbn. now rewrite app_nil_r.
  - reflexivity.
Qed.

Lemma tile_body_run (zoom minX minY x y : Z) (w : World) :
  exists (r : result unit) (items : list (string * (Z * Z))) (w' : World),
    (fname ← retrieve_tile_image (Tile x y) zoom;
     paste_image_file fname (256 * (x - minX), 256 * (y - minY))%Z) w
    = (r, w') /\
    stitched [(x, y)] items w w' /\
    (reliable -> forall mt : string, ready mt w ->
     r = Ok tt /\ items = [tile_paste (self w) mt zoom minX minY (x, y)]).
Proof.
  destruct (retrieve_tile_image_run (Tile x y) zoom w)
    as (r1 & w1 & E1 & Hs & Hn & Hc & Hr & Hok).
  assert (S1 : stitched [(x, y)] [] w w1) by now apply stitched_frame.
  destruct r1 as [fn | e].
  2:{ exists (Raise e), [], w1. split; [now apply bind_raise|].
      split; [assumption|].
      intros Hrel mt (_ & Hmt & Hcl).
      destruct (get_tile_url_tile x y zoom mt w Hmt Hcl) as [url Hurl].
      destruct (Hok Hrel (tile_filename (self w) mt zoom x y) url) as [[=] _];
        [now rewrite (get_local_filename_tile _ _ _ _ _ Hmt) | now rewrite Hurl]. }
  destruct (paste_image_file_run fn (256 * (x - minX), 256 * (y - minY))%Z w1)
    as (r2 & items & w2 & E2 & S2 & Hok2).
  exists r2, items, w2. split; [now rewrite (bind_ok _ _ _ _ _ E1)|].
  split; [apply (stitched_trans _ _ _ _ _ _ _ S1 S2)|].
  intros Hrel mt Hready.
  pose proof Hready as ((m & img & Hm & Hi) & Hmt & Hcl).
  destruct (get_tile_url_tile x y zoom mt w Hmt Hcl) as [url Hurl].
  destruct (Hok Hrel (tile_filename (self w) mt zoom x y) url) as [[= ->] Hfile];
    [now rewrite (get_local_filename_tile _ _ _ _ _ Hmt) | now rewrite Hurl |].
  destruct Hok2 as [-> ->]; [apply Hrel | assumption | |].
  - rewrite Hs, Hm. cbn. rewrite Hi. eauto.
  - split; reflexivity.
Qed.


Section Loops.
Context {A : Type} (mt : string) (body : A -> M unit)
  (tiles_of : A -> list (Z * Z))
  (items_of : MapManager -> A -> list (string * (Z * Z))).
Hypothesis items_config : forall (s s' : MapManager) (a : A),
  same_config s s' -> items_of s' a = items_of s a.
Hypothesis body_run : forall (a : A) (w : World),
  exists (r : result unit) (tiles : list (Z * Z))
         (items : list (string * (Z * Z))) (w' : World),
    body a w = (r, w') /\ stitched tiles items w w' /\
    (reliable -> ready mt w ->
     r = Ok tt /\ tiles = tiles_of a /\ items = items_of (self w) a).

Lemma for_each_run (l : list A) (w : World) :
  exists (r : result unit) (tiles : list (Z * Z))
         (items : list (string * (Z * Z))) (w' : World),
    for_each l body w = (r, w') /\ stitched tiles items w w' /\
    (reliable -> ready mt w ->
     r = Ok tt /\ tiles = l ≫= tiles_of /\ items = l ≫= items_of (self w)).
Proof.
  revert w. induction l as [|a l IH]; intros w.
  - exists (Ok tt), [], [], w. split; [reflexivity|].
    split; [apply stitched_refl|]. auto.
  - destruct (body_run a w) as (r1 & t1 & i1 & w1 & E1 & S1 & Hok1).
    cbn [for_each]. destruct r1 as [[] | e].
    + destruct (IH w1) as (r2 & t2 & i2 & w2 & E2 & S2 & Hok2).
      exists r2, (t1 ++ t2), (i1 ++ i2), w2.
      split; [now rewrite (bind_ok _ _ _ _ _ E1)|].
      split; [apply (stitched_trans _ _ _ _ _ _ _ S1 S2)|].
      intros Hrel Hready.
      destruct (Hok1 Hrel Hready) as (_ & -> & ->).
      destruct (Hok2 Hrel (stitched_ready _ _ _ _ _ S1 Hready))
        as (-> & -> & ->).
      split; [reflexivity|]. rewrite !bind_cons. split; [reflexivity|].
      f_equal. apply list_bind_ext; [|reflexivity].
      intros a'. apply items_config, S1.
    + exists (Raise e), t1, i1, w1.
      split; [now rewrite (bind_raise _ _ _ _ _ E1)|].
      split; [assumption|].
      intros Hrel Hready. now destruct (Hok1 Hrel Hready) as ([=] & _).
Qed.

End Loops.

Lemma tile_paste_config (s s' : MapManager) (mt : string)
    (zoom minX minY : Z) (xy : Z * Z) :
  same_config s s' ->
  tile_paste s' mt zoom minX minY xy = tile_paste s mt zoom minX minY xy.
Proof.
  intros Hc. unfold tile_paste. now rewrite (tile_filename_config _ _ _ _ _ _ Hc).
Qed.

Lemma fmap_grid {B : Type} (f : Z * Z -> B) (xs ys : list Z) :
  f <$> (x ← xs; y ← ys; [(x, y)]) = (x ← xs; y ← ys; [f (x, y)]).
Proof.
  induction xs as [|x xs IHx]; [reflexivity|].
  rewrite !bind_cons, fmap_app. f_equal; [|exact IHx].
  clear. induction ys as [|y ys IHy]; [reflexivity|].
  rewrite !bind_cons, fmap_app. now f_equal.
Qed.

Lemma tile_loops_run (mt : string) (zoom minX minY : Z) (xs ys : list Z)
    (w : World) :
  exists (r : result unit) (tiles : list (Z * Z))
         (items : list (string * (Z * Z))) (w' : World),
    for_each xs (fun x =>
      for_each ys (fun y =>
        fname ← retrieve_tile_image (Tile x y) zoom;
        paste_image_file fname (256 * (x - minX), 256 * (y - minY))%Z)) w
    = (r, w') /\
    stitched tiles items w w' /\
    (reliable -> ready mt w ->
     r = Ok tt /\
     tiles = (x ← xs; y ← ys; [(x, y)]) /\
     items = tile_paste (self w) mt zoom minX minY
             <$> (x ← xs; y ← ys; [(x, y)])).
Proof.
  assert (Hinner : forall (x : Z) (w0 : World),
    exists (r : result unit) (tiles : list (Z * Z))
           (items : list (string * (Z * Z))) (w' : World),
      for_each ys (fun y =>
        fname ← retrieve_tile_image (Tile x y) zoom;
        paste_image_file fname (256 * (x - minX), 256 * (y - minY))%Z) w0
      = (r, w') /\ stitched tiles items w0 w' /\
      (reliable -> ready mt w0 ->
       r = Ok tt /\ tiles = (y ← ys; [(x, y)]) /\
       items = (y ← ys; [tile_paste (self w0) mt zoom minX minY (x, y)]))).
  { intros x w0.
    apply (for_each_run mt _ (fun y => [(x, y)])
             (fun s y => [tile_paste s mt zoom minX minY (x, y)])).
    - intros s s' y Hc. now rewrite (tile_paste_config _ _ _ _ _ _ _ Hc).
    - intros y w1.
      destruct (tile_body_run zoom minX minY x y w1)
        as (r1 & i1 & w2 & E1 & S1 & Hok1).
      exists r1, [(x, y)], i1, w2. split; [exact E1|]. split; [exact S1|].
      intros Hrel Hready. destruct (Hok1 Hrel mt Hready) as [-> ->]. auto. }
  destruct (for_each_run mt _ (fun x => y ← ys; [(x, y)])
              (fun s x => y ← ys; [tile_paste s mt zoom minX minY (x, y)])
              (fun s s' x Hc =>
                 list_bind_ext _ _ ys ys
                   (fun y => f_equal (fun p => [p])
                               (tile_paste_config s s' mt zoom minX minY (x, y) Hc))
                   eq_refl)
              Hinner xs w)
    as (r & tiles & items & w' & E & S & Hok).
  exists r, tiles, items, w'. split; [exact E|]. split; [exact S|].
  intros Hrel Hready. destruct (Hok Hrel Hready) as (-> & -> & ->).
  split; [reflexivity|]. split; [reflexivity|].
  symmetry. apply fmap_grid.
Qed.

Lemma tile_grid_NoDup (minX minY maxX maxY : Z) :
  NoDup (tile_grid minX minY maxX maxY).
Proof.
  unfold tile_grid, range. apply NoDup_bind.
  - intros x1 x2 [a b] _ _ (y1 & Hy1 & _)%list_elem_of_bind
      (y2 & Hy2 & _)%list_elem_of_bind.
    apply list_elem_of_singleton in Hy1, Hy2. congruence.
  - intros x _. apply NoDup_bind.
    + intros y1 y2 [a b] _ _ Hy1 Hy2.
      apply list_elem_of_singleton in Hy1, Hy2. congruence.
    + intros y _. apply NoDup_singleton.
    + apply NoDup_seqZ.
  - apply NoDup_seqZ.
Qed.

Lemma tile_grid_elem (minX minY maxX maxY x y : Z) :
  (x, y) ∈ tile_grid minX minY maxX maxY
  <-> (minX <= x <= maxX)%Z /\ (minY <= y <= maxY)%Z.
Proof.
  unfold tile_grid, range. rewrite list_elem_of_bind. split.
  - intros (x' & (y' & Hxy & Hy)%list_elem_of_bind & Hx).
    apply list_elem_of_singleton in Hxy. injection Hxy as -> ->.
    apply elem_of_seqZ in Hx, Hy. lia.
  - intros [Hx Hy]. exists x. split.
    + apply list_elem_of_bind. exists y. split; [apply list_elem_of_singleton; reflexivity|].
      apply elem_of_seqZ. lia.
    + apply elem_of_seqZ. lia.
Qed.


Lemma read_color_run (kwargs : gmap string value) (w : World)
    (m : ImageManager) :
  manager (self w) = Some m ->
  exists (md : string) (w1 : World),
    read_color kwargs w = (Ok tt, w1) /\
    same_config (self w) (self w1) /\
    manager (self w1) = Some (mkImageManager (image m) md) /\
    trace w1 = trace w /\ next_id w1 = next_id w /\ files w1 = files w /\
    fetches w1 = fetches w.
Proof.
  intros Hm. unfold read_color, the_manager, set_manager.
  destruct (truthy (kwargs_get kwargs "color"));
    [destruct (negb (isinstance_str (kwargs_get kwargs "color"))
               || negb (in_strs (kwargs_get kwargs "color") ["color"; "bw"]))|];
    run; rewrite Hm; cbn;
    (eexists _, _; split; [reflexivity|]; cbn; repeat split).
Qed.

Lemma read_overwrite_prepares (kwargs : gmap string value)
    (m : ImageManager) (msg : string) :
  prepares kwargs m ->
  exists ov : bool,
    read_overwrite kwargs msg = mret ov /\
    bool_decide (is_Some (image m)) && negb ov = false.
Proof.
  unfold read_overwrite, kwargs_get.
  intros [[-> | ->] | [-> Hi]]; cbn.
  - exists true. split; [reflexivity|]. apply andb_false_r.
  - exists true. split; [reflexivity|]. apply andb_false_r.
  - exists false. split; [reflexivity|]. rewrite Hi.
    rewrite bool_decide_eq_false_2; [reflexivity|]. intros [? [=]].
Qed.

Lemma prepare_image_run (width height : Z) (ov : bool) (w : World)
    (m : ImageManager) :
  manager (self w) = Some m ->
  bool_decide (is_Some (image m)) && negb ov = false ->
  exists w' : World,
    prepare_image width height ov w = (Ok tt, w') /\
    same_config (self w) (self w') /\
    manager (self w')
    = Some (mkImageManager
              (Some (mkImage (next_id w) (mode m) width height [])) (mode m)) /\
    trace w' = trace w ++ [EvCreateImage (mode m) width height] /\
    next_id w' = S (next_id w) /\ files w' = files w /\
    fetches w' = fetches w.
Proof.
  intros Hm Hov. unfold prepare_image, create_image, the_manager, set_manager.
  run. rewrite Hm. cbn. rewrite Hov. cbn. repeat (rewrite Hm; cbn).
  eexists. split; [reflexivity|]. cbn. repeat split.
Qed.

Lemma prepare_image_refuses (width height : Z) (w : World)
    (m : ImageManager) (img : Image) :
  manager (self w) = Some m -> image m = Some img ->
  prepare_image width height false w
  = (Raise (Exception already_prepared), w).
Proof.
  intros Hm Hi. unfold prepare_image, the_manager. run.
  rewrite Hm. cbn. rewrite Hi.
  rewrite bool_decide_eq_true_2 by eauto. reflexivity.
Qed.

Lemma get_image_run (w : World) (m : ImageManager) :
  manager (self w) = Some m -> get_image w = (Ok (image m), w).
Proof. intros Hm. unfold get_image, the_manager. run. now rewrite Hm. Qed.

Lemma MapManager_create_map_run
    (minlat maxlat minlon maxlon : R) (zoom : Z)
    (kwargs : gmap string value) (w : World) (m : ImageManager)
    (minX minY maxX maxY : Z) :
  manager (self w) = Some m ->
  prepares kwargs m ->
  get_tile_coord minlon maxlat zoom = Ok (minX, minY) ->
  get_tile_coord maxlon minlat zoom = Ok (maxX, maxY) ->
  exists (r : result (option Image * bbox)) (md : string)
         (tiles : list (Z * Z)) (items : list (string * (Z * Z)))
         (w' : World),
    let img := mkImage (next_id w) md ((maxX - minX + 1) * 256)
                       ((maxY - minY + 1) * 256) items in
    MapManager_create_map (minlat, maxlat, minlon, maxlon) zoom kwargs w
    = (r, w') /\
    current_image w' = Some img /\
    created (trace w')
    = created (trace w)
      ++ [(md, (maxX - minX + 1) * 256, (maxY - minY + 1) * 256)%Z] /\
    requested_tiles (trace w') = requested_tiles (trace w) ++ tiles /\
    (reliable -> forall mt : string,
       maptype (self w) = Some (VStr mt) ->
       class_of (self w) <> GoogleManagerClass ->
       r = Ok (Some img, covered_box minX minY maxX maxY zoom) /\
       tiles = tile_grid minX minY maxX maxY /\
       items = tile_paste (self w) mt zoom minX minY
               <$> tile_grid minX minY maxX maxY).
Proof.
  intros Hm Hprep Htl Hbr.
  destruct (read_color_run kwargs w m Hm)
    as (md & w1 & E1 & C1 & M1 & T1 & N1 & _).
  destruct (read_overwrite_prepares kwargs (mkImageManager (image m) md)
              "Invalid 'overwrite' argument, must be True/False.")
    as (ov & Eov & Hov).
  { destruct Hprep as [? | [? ?]]; [now left | now right]. }
  destruct (prepare_image_run ((maxX - minX + 1) * 256) ((maxY - minY + 1) * 256)
              ov w1 _ M1 Hov)
    as (w2 & E2 & C2 & M2 & T2 & N2 & _).
  cbn [mode] in *.
  assert (Hmt0 : exists mt0 : string,
            forall mt, maptype (self w) = Some (VStr mt) -> mt = mt0).
  { destruct (maptype (self w)) as [[| | |mt0| |]|];
      first [ now exists mt0; intros ? [=] | exists ""; intros ? [=] ]. }
  destruct Hmt0 as [mt0 Hmt0].
  destruct (tile_loops_run mt0 zoom minX minY
              (range minX (maxX + 1)) (range minY (maxY + 1)) w2)
    as (r3 & tiles & items & w3 & E3 & S3 & Hok3).
  pose proof (st_image _ _ _ _ S3 _ _ M2 eq_refl) as M3. cbn in M3.
  assert (K3 : created (trace w3)
               = created (trace w)
                 ++ [(md, (maxX - minX + 1) * 256, (maxY - minY + 1) * 256)%Z]).
  { rewrite (st_created _ _ _ _ S3), T2, T1, created_app. reflexivity. }
  assert (R3 : requested_tiles (trace w3) = requested_tiles (trace w) ++ tiles).
  { rewrite (st_requested _ _ _ _ S3), T2, T1, requested_tiles_app. cbn.
    now rewrite app_nil_r. }
  assert (Hhead :
    MapManager_create_map (minlat, maxlat, minlon, maxlon) zoom kwargs w
    = (match r3 with
       | Ok _ => Ok (Some (mkImage (next_id w) md ((maxX - minX + 1) * 256)
                             ((maxY - minY + 1) * 256) items),
                     covered_box minX minY maxX maxY zoom)
       | Raise e => Raise e
       end, w3)).
  { unfold MapManager_create_map.
    rewrite (bind_ok _ _ w w (self w)) by reflexivity.
    rewrite Hm. rewrite bool_decide_eq_false_2 by discriminate.
    rewrite (bind_ok _ _ w w tt) by reflexivity.
    rewrite (bind_ok _ _ _ _ _ E1).
    rewrite Eov. rewrite (bind_ok _ _ w1 w1 ov) by reflexivity.
    rewrite Htl. rewrite (bind_ok _ _ w1 w1 (minX, minY)) by reflexivity.
    rewrite Hbr. rewrite (bind_ok _ _ w1 w1 (maxX, maxY)) by reflexivity.
    unfold covered_box.
    destruct (tile_nw_latlon (minX, minY) zoom) as [nmaxlat nminlon].
    destruct (tile_nw_latlon (maxX + 1, maxY + 1)%Z zoom) as [nminlat nmaxlon].
    rewrite (bind_ok _ _ _ _ _ E2).
    destruct r3 as [[] | e].
    - rewrite (bind_ok _ _ _ _ _ E3).
      rewrite (bind_ok _ _ _ _ _ (get_image_run _ _ M3)).
      rewrite <- N1. reflexivity.
    - now rewrite (bind_raise _ _ _ _ _ E3). }
  eexists _, md, tiles, items, w3. cbv zeta.
  split; [exact Hhead|].
  split; [unfold current_image; rewrite M3, <- N1; reflexivity|].
  split; [exact K3|]. split; [exact R3|].
  intros Hrel mt Hmt Hcl. pose proof (Hmt0 mt Hmt) as ->.
  destruct Hok3 as (-> & -> & ->); [exact Hrel | |].
  - split; [eauto|]. destruct C1 as (Ecl1 & _ & _ & _ & Emt1 & _).
    destruct C2 as (Ecl2 & _ & _ & _ & Emt2 & _).
    split; congruence.
  - split; [reflexivity|]. split; [reflexivity|].
    apply list_fmap_ext. intros _ xy _. apply tile_paste_config.
    eapply same_config_trans; eassumption.
Qed.


(** Claim C1.  When the image manager is there, the image may be
    prepared and both corner tiles are computed, [MapManager.create_map]
    creates exactly one image, of [(maxX - minX + 1) * 256] by
    [(maxY - minY + 1) * 256] pixels, and that image is the manager's
    image when the call ends.  When moreover no download and no file
    fails, the call returns that image, the tiles asked of
    [retrieve_tile_image] are those of the rectangle [minX..maxX] by
    [minY..maxY], each once, and the file of tile [(x, y)] is pasted at
    [(256 * (x - minX), 256 * (y - minY))]. *)
Theorem create_map_tile_grid
    (minlat maxlat minlon maxlon : R) (zoom : Z)
    (kwargs : gmap string value) (w : World) (m : ImageManager)
    (minX minY maxX maxY : Z) :
  manager (self w) = Some m ->
  prepares kwargs m ->
  get_tile_coord minlon maxlat zoom = Ok (minX, minY) ->
  get_tile_coord maxlon minlat zoom = Ok (maxX, maxY) ->
  exists (r : result (option Image * bbox)) (img : Image) (w' : World),
    MapManager_create_map (minlat, maxlat, minlon, maxlon) zoom kwargs w
    = (r, w') /\
    current_image w' = Some img /\
    img_width img = ((maxX - minX + 1) * 256)%Z /\
    img_height img = ((maxY - minY + 1) * 256)%Z /\
    created (trace w')
    = created (trace w)
      ++ [(img_mode img, (maxX - minX + 1) * 256, (maxY - minY + 1) * 256)%Z] /\
    (reliable -> forall mt : string,
       maptype (self w) = Some (VStr mt) ->
       class_of (self w) <> GoogleManagerClass ->
       (exists box' : bbox, r = Ok (Some img, box')) /\
       requested_tiles (trace w')
       = requested_tiles (trace w) ++ tile_grid minX minY maxX maxY /\
       NoDup (tile_grid minX minY maxX maxY) /\
       (forall x y : Z,
          (x, y) ∈ tile_grid minX minY maxX maxY
          <-> (minX <= x <= maxX)%Z /\ (minY <= y <= maxY)%Z) /\
       img_pastes img
       = tile_paste (self w) mt zoom minX minY
         <$> tile_grid minX minY maxX maxY).
Proof.
  intros Hm Hprep Htl Hbr.
  destruct (MapManager_create_map_run minlat maxlat minlon maxlon zoom kwargs
              w m minX minY maxX maxY Hm Hprep Htl Hbr)
    as (r & md & tiles & items & w' & E & Hi & Hc & Hr & Hok).
  eexists r, _, w'. split; [exact E|]. split; [exact Hi|]. cbn.
  split; [reflexivity|]. split; [reflexivity|]. split; [exact Hc|].
  intros Hrel mt Hmt Hcl. destruct (Hok Hrel mt Hmt Hcl) as (-> & -> & ->).
  split; [eauto|]. split; [exact Hr|].
  split; [apply tile_grid_NoDup|]. split; [apply tile_grid_elem|]. reflexivity.
Qed.


(** Claim C10.  When the image manager holds an image: with
    [overwrite=False], [create_map] raises, the image stays and nothing
    is created or fetched (the exception is that of [prepare_image] when
    both corner tiles are computed); with [overwrite=True] or no
    [overwrite] and both corner tiles computed, one image is created and
    the manager holds it when the call ends, whatever happens to the
    downloads. *)
Theorem create_map_overwrite
    (minlat maxlat minlon maxlon : R) (zoom : Z)
    (kwargs : gmap string value) (w : World) (m : ImageManager)
    (img : Image) :
  manager (self w) = Some m ->
  image m = Some img ->
  (kwargs !! "overwrite" = Some (VBool false) ->
   exists (e : exn) (w' : World),
     MapManager_create_map (minlat, maxlat, minlon, maxlon) zoom kwargs w
     = (Raise e, w') /\
     current_image w' = Some img /\ trace w' = trace w /\
     ((exists tl br : Z * Z,
         get_tile_coord minlon maxlat zoom = Ok tl /\
         get_tile_coord maxlon minlat zoom = Ok br) ->
      e = Exception already_prepared))
  /\
  (overwrites kwargs ->
   forall minX minY maxX maxY : Z,
   get_tile_coord minlon maxlat zoom = Ok (minX, minY) ->
   get_tile_coord maxlon minlat zoom = Ok (maxX, maxY) ->
   exists (r : result (option Image * bbox)) (img' : Image) (w' : World),
     MapManager_create_map (minlat, maxlat, minlon, maxlon) zoom kwargs w
     = (r, w') /\
     current_image w' = Some img' /\ img_id img' = next_id w /\
     created (trace w')
     = created (trace w)
       ++ [(img_mode img', (maxX - minX + 1) * 256, (maxY - minY + 1) * 256)%Z] /\
     ((img_id img < next_id w)%nat -> img' <> img)).
Proof.
  intros Hm Hi. split.
  - intros Hov.
    destruct (read_color_run kwargs w m Hm)
      as (md & w1 & E1 & C1 & M1 & T1 & N1 & _).
    assert (Eov : forall msg, read_overwrite kwargs msg = mret false).
    { intros msg. unfold read_overwrite, kwargs_get. now rewrite Hov. }
    assert (Hcur : current_image w1 = Some img).
    { unfold current_image. rewrite M1. exact Hi. }
    unfold MapManager_create_map.
    rewrite (bind_ok _ _ w w (self w)) by reflexivity.
    rewrite Hm. rewrite bool_decide_eq_false_2 by discriminate.
    rewrite (bind_ok _ _ w w tt) by reflexivity.
    rewrite (bind_ok _ _ _ _ _ E1).
    rewrite Eov. rewrite (bind_ok _ _ w1 w1 false) by reflexivity.
    destruct (get_tile_coord minlon maxlat zoom) as [[minX minY] | e1].
    2:{ exists e1, w1. split; [reflexivity|]. split; [exact Hcur|].
        split; [exact T1|]. intros (tl & br & [=] & _). }
    rewrite (bind_ok _ _ w1 w1 (minX, minY)) by reflexivity.
    destruct (get_tile_coord maxlon minlat zoom) as [[maxX maxY] | e2].
    2:{ exists e2, w1. split; [reflexivity|]. split; [exact Hcur|].
        split; [exact T1|]. intros (tl & br & _ & [=]). }
    rewrite (bind_ok _ _ w1 w1 (maxX, maxY)) by reflexivity.
    destruct (tile_nw_latlon (minX, minY) zoom) as [nmaxlat nminlon].
    destruct (tile_nw_latlon (maxX + 1, maxY + 1)%Z zoom) as [nminlat nmaxlon].
    rewrite (bind_raise _ _ _ _ _
               (prepare_image_refuses _ _ w1 _ img M1 Hi)).
    exists (Exception already_prepared), w1.
    split; [reflexivity|]. split; [exact Hcur|]. split; [exact T1|]. auto.
  - intros Hov minX minY maxX maxY Htl Hbr.
    destruct (MapManager_create_map_run minlat maxlat minlon maxlon zoom kwargs
                w m minX minY maxX maxY Hm (or_introl Hov) Htl Hbr)
      as (r & md & tiles & items & w' & E & Hcur & Hc & _ & _).
    eexists r, _, w'. split; [exact E|]. split; [exact Hcur|]. cbn.
    split; [reflexivity|]. split; [exact Hc|].
    intros Hlt <-. cbn in Hlt. lia.
Qed.

End CreateMap.

(** ** The claims at concrete inputs *)

Lemma sample_env_reliable : @reliable sample_env.
Proof. split; [intros k url; now exists "png" | reflexivity]. Qed.

Section Equator.
Local Open Scope R_scope.

Lemma int_floor (v : R) (k : Z) : 0 <= v -> IZR k <= v < IZR k + 1 -> int v = k.
Proof.
  intros Hv Hk. unfold int. destruct (Rle_dec 0 v); [|contradiction].
  apply Zfloor_eq. lra.
Qed.

(** On the equator at zoom 1 the tile row is 1 and the column is the
    half of the world the longitude lies in. *)
Lemma get_tile_coord_equator (lon : R) (x : Z) :
  IZR x <= (lon + 180) / 180 < IZR x + 1 -> 0 <= lon + 180 ->
  get_tile_coord lon 0 1 = Ok (x, 1%Z).
Proof.
  intros Hx Hlon. rewrite get_tile_coord_ok by lra.
  replace (0 * PI / 180) with 0 by lra.
  rewrite tan_0, cos_0. replace (0 + 1 / 1) with 1 by lra. rewrite ln_1.
  assert (Hp : pow2 1 = 2) by (unfold pow2; apply powerRZ_1).
  rewrite Hp. pose proof PI_RGT_0.
  f_equal. f_equal.
  - apply int_floor; lra.
  - apply int_floor; [|cbn]; unfold Rdiv; rewrite Rmult_0_l; lra.
Qed.

End Equator.


Lemma retrieve_tile_image_cache_policy_witness :
  (is_Some (files osm_world !! "/tmp/mappie-6ef42-_3_1_2.png") ->
   @retrieve_tile_image sample_env (Tile 1 2) 3 osm_world
   = (Ok "/tmp/mappie-6ef42-_3_1_2.png",
      logged (EvRetrieve (Tile 1 2) 3) osm_world))
  /\
  (files osm_world !! "/tmp/mappie-6ef42-_3_1_2.png" = None ->
   forall url : string,
   (@get_tile_url sample_env (Tile 1 2) 3 osm_world).1 = Ok url ->
   exists (r : result string) (w' : World),
     @retrieve_tile_image sample_env (Tile 1 2) 3 osm_world = (r, w') /\
     trace w'
     = trace osm_world
       ++ [EvRetrieve (Tile 1 2) 3;
           EvFetch url "/tmp/mappie-6ef42-_3_1_2.png"] /\
     fetches w' = S (fetches osm_world) /\
     match @http_get sample_env (fetches osm_world) url with
     | Fetched _ => r = Ok "/tmp/mappie-6ef42-_3_1_2.png"
     | FetchFailed e _ =>
         let msg := "Unable to retrieve URL: " +:+ url +:+ newline
                    +:+ str_exn e in
         r = Raise (Exception msg) /\ contains url msg
         /\ contains (str_exn e) msg
     end).
Proof.
  apply (@retrieve_tile_image_cache_policy sample_env (Tile 1 2) 3 osm_world).
  vm_compute. reflexivity.
Defined.

Lemma create_map_tile_grid_witness :
  exists (r : result (option Image * bbox)) (img : Image) (w' : World),
    @MapManager_create_map sample_env (0, 0, -10, 10)%R 1 ∅ osm_world
    = (r, w') /\
    current_image w' = Some img /\
    img_width img = ((1 - 0 + 1) * 256)%Z /\
    img_height img = ((1 - 1 + 1) * 256)%Z /\
    created (trace w')
    = created (trace osm_world)
      ++ [(img_mode img, (1 - 0 + 1) * 256, (1 - 1 + 1) * 256)%Z] /\
    (@reliable sample_env -> forall mt : string,
       maptype (self osm_world) = Some (VStr mt) ->
       class_of (self osm_world) <> GoogleManagerClass ->
       (exists box' : bbox, r = Ok (Some img, box')) /\
       requested_tiles (trace w')
       = requested_tiles (trace osm_world) ++ tile_grid 0 1 1 1 /\
       NoDup (tile_grid 0 1 1 1) /\
       (forall x y : Z,
          (x, y) ∈ tile_grid 0 1 1 1
          <-> (0 <= x <= 1)%Z /\ (1 <= y <= 1)%Z) /\
       img_pastes img
       = tile_paste (self osm_world) mt 1 0 1 <$> tile_grid 0 1 1 1).
Proof.
  apply (@create_map_tile_grid sample_env 0 0 (-10) 10 1 ∅ osm_world
           (mkImageManager None "RGBA") 0 1 1 1).
  - reflexivity.
  - left. left. reflexivity.
  - apply get_tile_coord_equator; cbn; lra.
  - apply get_tile_coord_equator; cbn; lra.
Defined.


Lemma create_map_overwrite_witness :
  (({[ "overwrite" := VBool false ]} : gmap string value) !! "overwrite"
   = Some (VBool false) ->
   exists (e : exn) (w' : World),
     @MapManager_create_map sample_env (0, 0, -10, 10)%R 1
       {[ "overwrite" := VBool false ]} osm_world_with_image
     = (Raise e, w') /\
     current_image w' = Some old_image /\
     trace w' = trace osm_world_with_image /\
     ((exists tl br : Z * Z,
         get_tile_coord (-10) 0 1 = Ok tl /\ get_tile_coord 10 0 1 = Ok br) ->
      e = Exception already_prepared))
  /\
  (overwrites {[ "overwrite" := VBool false ]} ->
   forall minX minY maxX maxY : Z,
   get_tile_coord (-10) 0 1 = Ok (minX, minY) ->
   get_tile_coord 10 0 1 = Ok (maxX, maxY) ->
   exists (r : result (option Image * bbox)) (img' : Image) (w' : World),
     @MapManager_create_map sample_env (0, 0, -10, 10)%R 1
       {[ "overwrite" := VBool false ]} osm_world_with_image
     = (r, w') /\
     current_image w' = Some img' /\
     img_id img' = next_id osm_world_with_image /\
     created (trace w')
     = created (trace osm_world_with_image)
       ++ [(img_mode img', (maxX - minX + 1) * 256, (maxY - minY + 1) * 256)%Z] /\
     ((img_id old_image < next_id osm_world_with_image)%nat ->
      img' <> old_image)).
Proof.
  apply (@create_map_overwrite sample_env 0 0 (-10) 10 1
           {[ "overwrite" := VBool false ]} osm_world_with_image
           (mkImageManager (Some old_image) "RGBA") old_image);
    reflexivity.
Defined.

(** ** Round trips of [adjust.py] *)

Section PixelRoundTrips.
Import adjust.
Local Open Scope R_scope.









End PixelRoundTrips.

(** ** [GoogleManager.create_map] *)

Section GoogleRuns.
Context `{Env}.
Local Open Scope Z_scope.

Lemma maptype_phase {B} (mt : value) (k : M B) (w : World) :
  maptype_accepted mt ->
  (set_maptype mt ;;
   (if truthy mt then
      if negb (isinstance_str mt)
         || negb (in_strs mt ["terrain"; "satellite"; "roadmap"; "hybrid"]) then
        raise (ValueError
          "Invalid maptype specified, must be 'terrain', 'satellite', roadmap, or 'hybrid'.")
      else mret tt
    else set_maptype (VStr "terrain")) ;;
   k) w
  = k (set_maptype (effective mt (VStr "terrain")) w).2.
Proof.
  intros Hacc. unfold effective. destruct (truthy mt) eqn:Ht.
  - destruct (Hacc Ht) as [-> ->]. reflexivity.
  - reflexivity.
Qed.

Lemma size_phase {B} (sz : value) (k : M B) (w : World) :
  size_accepted sz ->
  (set_size sz ;;
   (if truthy sz then
      if negb (isinstance_tuple sz) || negb (all_in_bounds sz) then
        raise (ValueError "Invalid size parameter, must be < 640x640")
      else mret tt
    else set_size (VTuple [VInt 256; VInt 256])) ;;
   k) w
  = k (set_size (effective sz (VTuple [VInt 256; VInt 256])) w).2.
Proof.
  intros Hacc. unfold effective. destruct (truthy sz) eqn:Ht.
  - destruct (Hacc Ht) as [-> ->]. reflexivity.
  - reflexivity.
Qed.

Lemma scale_phase {B} (sc : value) (k : M B) (w : World) :
  scale_accepted sc ->
  (set_scale sc ;;
   (if truthy sc then
      if negb (in_ints sc [1; 2; 4]) then
        raise (ValueError "Invalid scale parameter, must be 1, 2, or 4")
      else mret tt
    else set_scale (VInt 2)) ;;
   k) w
  = k (set_scale (effective sc (VInt 2)) w).2.
Proof.
  intros Hacc. unfold effective. destruct (truthy sc) eqn:Ht.
  - rewrite (Hacc Ht). reflexivity.
  - reflexivity.
Qed.

Lemma scale_phase_rejects {B} (sc : value) (k : M B) (w : World) :
  truthy sc = true -> in_ints sc [1; 2; 4] = false ->
  (set_scale sc ;;
   (if truthy sc then
      if negb (in_ints sc [1; 2; 4]) then
        raise (ValueError "Invalid scale parameter, must be 1, 2, or 4")
      else mret tt
    else set_scale (VInt 2)) ;;
   k) w
  = (Raise (ValueError scale_message), (set_scale sc w).2).
Proof. intros -> ->. reflexivity. Qed.

Lemma style_phase {B} (sty : value) (k : M B) (w : World) :
  style_accepted sty ->
  (set_style sty ;;
   (if truthy sty && negb (isinstance_str sty) then
      raise (ValueError "Invalid style specified, must be str.")
    else mret tt) ;;
   k) w
  = k (set_style sty w).2.
Proof.
  intros Hacc. destruct (truthy sty) eqn:Ht.
  - rewrite (Hacc Ht). reflexivity.
  - reflexivity.
Qed.

Lemma markers_phase {B} (mk : value) (k : M B) (w : World) :
  truthy mk = false ->
  (set_markers mk ;;
   (if truthy mk then
      raise (NameError "global name 'markers' is not defined")
    else mret tt) ;;
   k) w
  = k (set_markers mk w).2.
Proof. intros ->. reflexivity. Qed.

Lemma paths_phase {B} (pt : value) (k : M B) (w : World) :
  truthy pt = false ->
  (set_paths pt ;;
   (if truthy pt then
      raise (NameError "global name 'paths' is not defined")
    else mret tt) ;;
   k) w
  = k (set_paths pt w).2.
Proof. intros ->. reflexivity. Qed.


Lemma configured_self (mt sz sc sty mk pt : value) (w : World) :
  self (configured mt sz sc sty mk pt w)
  = mkMapManager (class_of (self w)) (cache (self w)) (server (self w))
      (cache_prefix (self w)) (manager (self w))
      (Some mt) (Some sz) (Some sc) (Some sty) (Some mk) (Some pt)
  /\ trace (configured mt sz sc sty mk pt w) = trace w
  /\ next_id (configured mt sz sc sty mk pt w) = next_id w
  /\ files (configured mt sz sc sty mk pt w) = files w
  /\ fetches (configured mt sz sc sty mk pt w) = fetches w.
Proof. repeat split. Qed.

Lemma XYToLL_ok (x y : Z) (lon lat : R) (z : Z) :
  (-90 < lat < 90)%R -> z <= 21 ->
  exists p : R * R, adjust.XYToLL x y lon lat z = Ok p.
Proof.
  intros Hlat Hz. unfold adjust.XYToLL, lshift.
  destruct (21 - z <? 0) eqn:E; [apply Z.ltb_lt in E; lia|].
  cbn. rewrite (LatToY_ok lat Hlat). cbn. eauto.
Qed.

Lemma get_tile_url_google_ok (c : coord) (zoom : Z) (w : World)
    (a b sc sty mk pt : value) (mt : string) (k : Z) :
  size (self w) = Some (VTuple [a; b]) ->
  scale (self w) = Some sc -> as_int sc = Some k ->
  maptype (self w) = Some (VStr mt) ->
  style (self w) = Some sty -> style_accepted sty ->
  markers (self w) = Some mk -> truthy mk = false ->
  paths (self w) = Some pt -> truthy pt = false ->
  exists url : string, get_tile_url c zoom w = (Ok url, w).
Proof.
  intros Hsz Hsc Hk Hmt Hsty Hacc Hmk Hmkf Hpt Hptf.
  unfold get_tile_url, get_tile_url_base, get_tile_url_google. run.
  destruct (class_of (self w)); run;
    rewrite ?Hsz, ?Hsc, ?Hmt, ?Hsty, ?Hmk, ?Hpt; cbn; eauto.
  assert (Hs1 : exists s, percent_s1 sc = Ok s).
  { destruct sc; try discriminate; cbn; eauto. }
  destruct Hs1 as [s1 ->]. cbn.
  rewrite Hmkf, Hptf.
  destruct (truthy sty) eqn:Ht; cbn; [|eauto].
  specialize (Hacc Ht). destruct sty; try discriminate. cbn. eauto.
Qed.


Lemma GoogleManager_create_map_run
    (minlat maxlat minlon maxlon : R) (zoom : Z)
    (kwargs : gmap string value) (w : World) (m : ImageManager)
    (l : list value) (a b : value) (h v k : Z) :
  maptype_accepted (kwargs_get kwargs "maptype") ->
  size_accepted (kwargs_get kwargs "size") ->
  scale_accepted (kwargs_get kwargs "scale") ->
  style_accepted (kwargs_get kwargs "style") ->
  truthy (kwargs_get kwargs "markers") = false ->
  truthy (kwargs_get kwargs "paths") = false ->
  manager (self w) = Some m ->
  prepares kwargs m ->
  effective (kwargs_get kwargs "size") (VTuple [VInt 256; VInt 256])
  = VTuple l ->
  l !! 0%nat = Some a -> l !! 1%nat = Some b ->
  as_int a = Some h -> as_int b = Some v ->
  as_int (effective (kwargs_get kwargs "scale") (VInt 2)) = Some k ->
  exists (r : result (option Image * bbox)) (md : string)
         (items : list (string * (Z * Z))) (w' : World),
    let img := mkImage (next_id w) md (k * v) (k * h) items in
    GoogleManager_create_map (minlat, maxlat, minlon, maxlon) zoom kwargs w
    = (r, w') /\
    current_image w' = Some img /\
    created (trace w') = created (trace w) ++ [(md, k * v, k * h)] /\
    (reliable -> length l = 2%nat -> zoom <= 21 ->
     (-90 < (minlat + maxlat) / 2 < 90)%R ->
     exists box' : bbox, r = Ok (Some img, box')).
Proof.
  intros Hmt Hsz Hsc Hsty Hmk Hpt Hm Hprep Hl Ha Hb Hh Hv Hk.
  unfold GoogleManager_create_map. cbv zeta.
  rewrite maptype_phase by assumption.
  rewrite size_phase by assumption.
  rewrite scale_phase by assumption.
  rewrite style_phase by assumption.
  rewrite markers_phase by assumption.
  rewrite paths_phase by assumption.
  set (mt' := effective (kwargs_get kwargs "maptype") (VStr "terrain")) in *.
  set (sc' := effective (kwargs_get kwargs "scale") (VInt 2)) in *.
  rewrite Hl.
  match goal with
  | |- context [ ?k0 (set_paths ?pt (set_markers ?mk (set_style ?sty
                   (set_scale sc' (set_size (VTuple l)
                      (set_maptype mt' w).2).2).2).2).2).2 ] =>
      change (set_paths pt (set_markers mk (set_style sty
                (set_scale sc' (set_size (VTuple l)
                   (set_maptype mt' w).2).2).2).2).2).2
        with (configured mt' (VTuple l) sc' sty mk pt w)
  end.
  set (wv := configured mt' (VTuple l) sc' (kwargs_get kwargs "style")
               (kwargs_get kwargs "markers") (kwargs_get kwargs "paths") w).
  destruct (configured_self mt' (VTuple l) sc' (kwargs_get kwargs "style")
              (kwargs_get kwargs "markers") (kwargs_get kwargs "paths") w)
    as (Sv & Tv & Nv & _).
  fold wv in Sv, Tv, Nv.
  assert (Mv : manager (self wv) = Some m) by (rewrite Sv; exact Hm).
  rewrite (bind_ok _ _ wv wv (self wv)) by reflexivity.
  rewrite Mv. rewrite bool_decide_eq_false_2 by discriminate.
  rewrite (bind_ok _ _ wv wv tt) by reflexivity.
  destruct (read_color_run kwargs wv m Mv)
    as (md & w1 & E1 & C1 & M1 & T1 & N1 & _).
  rewrite (bind_ok _ _ _ _ _ E1).
  destruct (read_overwrite_prepares kwargs (mkImageManager (image m) md)
              "Invalid overwrite argument, must be True or False.")
    as (ov & Eov & Hov).
  { destruct Hprep as [? | [? ?]]; [now left | now right]. }
  rewrite Eov. rewrite (bind_ok _ _ w1 w1 ov) by reflexivity.
  rewrite Sv. cbn [scale size attr].
  rewrite (bind_ok _ _ w1 w1 sc') by reflexivity.
  rewrite (bind_ok _ _ w1 w1 (VTuple l)) by reflexivity.
  unfold int_operand, tuple_item. rewrite Hk, Ha, Hb.
  rewrite (bind_ok _ _ w1 w1 k) by reflexivity.
  rewrite (bind_ok _ _ w1 w1 b) by reflexivity. cbv beta. rewrite Hv.
  rewrite (bind_ok _ _ w1 w1 v) by reflexivity.
  rewrite (bind_ok _ _ w1 w1 a) by reflexivity. cbv beta. rewrite Hh.
  rewrite (bind_ok _ _ w1 w1 h) by reflexivity.
  destruct (prepare_image_run (k * v) (k * h) ov w1 _ M1 Hov)
    as (w2 & E2 & C2 & M2 & T2 & N2 & _).
  cbn [mode] in *.
  rewrite (bind_ok _ _ _ _ _ E2).
  destruct (retrieve_tile_image_run (BBox minlat maxlat minlon maxlon) zoom w2)
    as (r3 & w3 & E3 & S3 & N3 & K3 & _ & Hok3).
  assert (M3 : manager (self w3)
               = Some (mkImageManager
                         (Some (mkImage (next_id w) md (k * v) (k * h) [])) md)).
  { rewrite S3, M2, N1, Nv. reflexivity. }
  assert (Kc : created (trace w3)
               = created (trace w) ++ [(md, k * v, k * h)]).
  { rewrite K3, T2, T1, Tv, created_app. reflexivity. }
  assert (Hurls : length l = 2%nat ->
            exists fn0 url : string,
              (get_local_filename (BBox minlat maxlat minlon maxlon) zoom w2).1
              = Ok fn0 /\
              (get_tile_url (BBox minlat maxlat minlon maxlon) zoom w2).1
              = Ok url).
  { intros Hlen.
    assert (El : l = [a; b]).
    { destruct l as [|a' [|b' [|c' l']]]; try discriminate.
      cbn in Ha, Hb. congruence. }
    assert (Emt : exists s, mt' = VStr s).
    { unfold mt', effective.
      destruct (truthy (kwargs_get kwargs "maptype")) eqn:Ht; [|eauto].
      destruct (Hmt Ht) as [Hs _].
      destruct (kwargs_get kwargs "maptype"); try discriminate. eauto. }
    destruct Emt as [smt Emt].
    assert (Cv : same_config (self wv) (self w2))
      by (eapply same_config_trans; eassumption).
    destruct Cv as (_ & _ & _ & _ & Cmt & Csz & Csc & Csty & Cmk & Cpt).
    rewrite Sv in Cmt, Csz, Csc, Csty, Cmk, Cpt. cbn in Cmt, Csz, Csc, Csty, Cmk, Cpt.
    rewrite Emt in Cmt. rewrite El in Csz.
    destruct (get_tile_url_google_ok (BBox minlat maxlat minlon maxlon) zoom w2
                _ _ _ _ _ _ _ _ Csz Csc Hk Cmt Csty Hsty Cmk Hmk Cpt Hpt)
      as [url Eurl].
    eexists _, url. split; [|now rewrite Eurl].
    unfold get_local_filename. run. rewrite Cmt. reflexivity. }
  destruct r3 as [fn | e].
  2:{ rewrite (bind_raise _ _ _ _ _ E3).
      exists (Raise e), md, [], w3. cbv zeta.
      split; [reflexivity|].
      split; [unfold current_image; now rewrite M3|].
      split; [exact Kc|].
      intros Hrel Hlen _ _. destruct (Hurls Hlen) as (fn0 & url & Efn & Eurl).
      now destruct (Hok3 Hrel fn0 url Efn Eurl) as [[=] _]. }
  rewrite (bind_ok _ _ _ _ _ E3).
  destruct (paste_image_file_run fn (0, 0) w3)
    as (r4 & items & w4 & E4 & S4 & Hok4).
  pose proof (st_image _ _ _ _ S4 _ _ M3 eq_refl) as M4. cbn in M4.
  assert (K4 : created (trace w4) = created (trace w) ++ [(md, k * v, k * h)]).
  { now rewrite (st_created _ _ _ _ S4). }
  assert (Hpaste : reliable -> length l = 2%nat -> r4 = Ok tt).
  { intros Hrel Hlen. destruct (Hurls Hlen) as (fn0 & url & Efn & Eurl).
    destruct (Hok3 Hrel fn0 url Efn Eurl) as [[= ->] Hfile].
    apply Hok4; [apply Hrel | exact Hfile |].
    rewrite M3. cbn. eauto. }
  destruct r4 as [[] | e].
  2:{ rewrite (bind_raise _ _ _ _ _ E4).
      exists (Raise e), md, items, w4. cbv zeta.
      split; [reflexivity|].
      split; [unfold current_image; now rewrite M4|].
      split; [exact K4|].
      intros Hrel Hlen _ _. now specialize (Hpaste Hrel Hlen). }
  rewrite (bind_ok _ _ _ _ _ E4).
  destruct (adjust.XYToLL ((- h) `div` 2) ((- v) `div` 2) ((minlon + maxlon) / 2)
              ((minlat + maxlat) / 2) zoom) as [[nminlon nmaxlat] | e] eqn:Enw.
  2:{ exists (Raise e), md, items, w4. cbv zeta.
      split; [reflexivity|].
      split; [unfold current_image; now rewrite M4|].
      split; [exact K4|].
      intros _ _ Hz Hlat.
      destruct (XYToLL_ok ((- h) `div` 2) ((- v) `div` 2) ((minlon + maxlon) / 2)
                  ((minlat + maxlat) / 2) zoom Hlat Hz) as [p Ep].
      congruence. }
  rewrite (bind_ok _ _ w4 w4 (nminlon, nmaxlat)) by reflexivity.
  destruct (adjust.XYToLL (h `div` 2) (v `div` 2) ((minlon + maxlon) / 2)
              ((minlat + maxlat) / 2) zoom) as [[nmaxlon nminlat] | e] eqn:Ese.
  2:{ exists (Raise e), md, items, w4. cbv zeta.
      split; [reflexivity|].
      split; [unfold current_image; now rewrite M4|].
      split; [exact K4|].
      intros _ _ Hz Hlat.
      destruct (XYToLL_ok (h `div` 2) (v `div` 2) ((minlon + maxlon) / 2)
                  ((minlat + maxlat) / 2) zoom Hlat Hz) as [p Ep].
      congruence. }
  rewrite (bind_ok _ _ w4 w4 (nmaxlon, nminlat)) by reflexivity.
  rewrite (bind_ok _ _ _ _ _ (get_image_run _ _ M4)).
  eexists _, md, items, w4. cbv zeta.
  split; [reflexivity|].
  split; [unfold current_image; now rewrite M4|].
  split; [exact K4|]. cbn. eauto.
Qed.


(** Claim C9.  When [GoogleManager.create_map] accepts its options,
    with the size tuple [(h, v)] and the scale [k] it ends with, it
    creates one image, [k * v] pixels wide and [k * h] pixels high, and
    this is the manager's image when the call ends: the width comes from
    the second component of [size] and the height from the first. *)
Theorem google_surface_transposed
    (minlat maxlat minlon maxlon : R) (zoom : Z)
    (kwargs : gmap string value) (w : World) (m : ImageManager)
    (l : list value) (a b : value) (h v k : Z) :
  maptype_accepted (kwargs_get kwargs "maptype") ->
  size_accepted (kwargs_get kwargs "size") ->
  scale_accepted (kwargs_get kwargs "scale") ->
  style_accepted (kwargs_get kwargs "style") ->
  truthy (kwargs_get kwargs "markers") = false ->
  truthy (kwargs_get kwargs "paths") = false ->
  manager (self w) = Some m ->
  prepares kwargs m ->
  effective (kwargs_get kwargs "size") (VTuple [VInt 256; VInt 256])
  = VTuple l ->
  l !! 0%nat = Some a -> l !! 1%nat = Some b ->
  as_int a = Some h -> as_int b = Some v ->
  as_int (effective (kwargs_get kwargs "scale") (VInt 2)) = Some k ->
  exists (r : result (option Image * bbox)) (img : Image) (w' : World),
    GoogleManager_create_map (minlat, maxlat, minlon, maxlon) zoom kwargs w
    = (r, w') /\
    current_image w' = Some img /\
    img_width img = k * v /\ img_height img = k * h /\
    created (trace w')
    = created (trace w) ++ [(img_mode img, k * v, k * h)].
Proof.
  intros Hmt Hsz Hsc Hsty Hmk Hpt Hm Hprep Hl Ha Hb Hh Hv Hk.
  destruct (GoogleManager_create_map_run minlat maxlat minlon maxlon zoom
              kwargs w m l a b h v k Hmt Hsz Hsc Hsty Hmk Hpt Hm Hprep Hl
              Ha Hb Hh Hv Hk)
    as (r & md & items & w' & E & Hi & Hc & _).
  eexists r, _, w'. split; [exact E|]. split; [exact Hi|]. cbn. auto.
Qed.

(** Claim C8, as the code has it.  Once the map type and the size have
    passed their checks, a scale that is true in a condition and not one
    of 1, 2 and 4 makes [GoogleManager.create_map] raise the
    [ValueError] of the scale check, with nothing logged, fetched,
    written or created.  A scale that is one of 1, 2 and 4, or false in
    a condition (then 2 is used), passes: with the other options
    accepted the image is created, and when moreover no download and no
    file fails, [size] is a pair, the zoom is at most 21 and the centre
    latitude is in (-90, 90), the call returns. *)
Theorem google_scale_validation
    (minlat maxlat minlon maxlon : R) (zoom : Z)
    (kwargs : gmap string value) (w : World) :
  maptype_accepted (kwargs_get kwargs "maptype") ->
  size_accepted (kwargs_get kwargs "size") ->
  (truthy (kwargs_get kwargs "scale") = true ->
   in_ints (kwargs_get kwargs "scale") [1; 2; 4] = false ->
   exists w' : World,
     GoogleManager_create_map (minlat, maxlat, minlon, maxlon) zoom kwargs w
     = (Raise (ValueError scale_message), w') /\
     trace w' = trace w /\ files w' = files w /\ fetches w' = fetches w /\
     next_id w' = next_id w /\ manager (self w') = manager (self w))
  /\
  (scale_accepted (kwargs_get kwargs "scale") ->
   forall (m : ImageManager) (l : list value) (a b : value) (h v k : Z),
   style_accepted (kwargs_get kwargs "style") ->
   truthy (kwargs_get kwargs "markers") = false ->
   truthy (kwargs_get kwargs "paths") = false ->
   manager (self w) = Some m ->
   prepares kwargs m ->
   effective (kwargs_get kwargs "size") (VTuple [VInt 256; VInt 256])
   = VTuple l ->
   l !! 0%nat = Some a -> l !! 1%nat = Some b ->
   as_int a = Some h -> as_int b = Some v ->
   as_int (effective (kwargs_get kwargs "scale") (VInt 2)) = Some k ->
   exists (r : result (option Image * bbox)) (md : string) (w' : World),
     GoogleManager_create_map (minlat, maxlat, minlon, maxlon) zoom kwargs w
     = (r, w') /\
     created (trace w') = created (trace w) ++ [(md, k * v, k * h)] /\
     (reliable -> length l = 2%nat -> zoom <= 21 ->
      (-90 < (minlat + maxlat) / 2 < 90)%R ->
      exists (img : Image) (box' : bbox), r = Ok (Some img, box'))).
Proof.
  intros Hmt Hsz. split.
  - intros Ht Hin. unfold GoogleManager_create_map. cbv zeta.
    rewrite maptype_phase by assumption.
    rewrite size_phase by assumption.
    rewrite scale_phase_rejects by assumption.
    eexists. split; [reflexivity|]. repeat split.
  - intros Hsc m l a b h v k Hsty Hmk Hpt Hm Hprep Hl Ha Hb Hh Hv Hk.
    destruct (GoogleManager_create_map_run minlat maxlat minlon maxlon zoom
                kwargs w m l a b h v k Hmt Hsz Hsc Hsty Hmk Hpt Hm Hprep Hl
                Ha Hb Hh Hv Hk)
      as (r & md & items & w' & E & _ & Hc & Hok).
    exists r, md, w'. split; [exact E|]. split; [exact Hc|].
    intros Hrel Hlen Hz Hlat.
    destruct (Hok Hrel Hlen Hz Hlat) as [box' ->]. eauto.
Qed.

End GoogleRuns.

Lemma google_surface_transposed_witness :
  exists (r : result (option Image * bbox)) (img : Image) (w' : World),
    @GoogleManager_create_map sample_env (0, 0, 0, 0)%R 10
      {[ "size" := VTuple [VInt 100; VInt 200]; "scale" := VInt 2 ]}
      google_world
    = (r, w') /\
    current_image w' = Some img /\
    img_width img = (2 * 200)%Z /\ img_height img = (2 * 100)%Z /\
    created (trace w')
    = created (trace google_world) ++ [(img_mode img, 2 * 200, 2 * 100)%Z].
Proof.
  apply (@google_surface_transposed sample_env 0 0 0 0 10
           {[ "size" := VTuple [VInt 100; VInt 200]; "scale" := VInt 2 ]}
           google_world (mkImageManager None "RGBA")
           [VInt 100; VInt 200] (VInt 100) (VInt 200) 100 200 2);
    try (intros Ht; vm_compute in Ht; try discriminate Ht; vm_compute;
         (reflexivity || (split; reflexivity)));
    try (vm_compute; reflexivity).
  left. left. vm_compute. reflexivity.
Defined.

Lemma google_scale_validation_witness :
  (exists w' : World,
     @GoogleManager_create_map sample_env (0, 0, 0, 0)%R 10
       {[ "scale" := VInt 3 ]} google_world
     = (Raise (ValueError scale_message), w') /\
     trace w' = trace google_world /\ files w' = files google_world /\
     fetches w' = fetches google_world /\
     next_id w' = next_id google_world /\
     manager (self w') = manager (self google_world))
  /\
  (exists (img : Image) (box' : bbox) (w' : World),
     @GoogleManager_create_map sample_env (0, 0, 0, 0)%R 10
       {[ "scale" := VInt 2 ]} google_world
     = (Ok (Some img, box'), w')).
Proof.
  assert (Hmt : forall sc : Z,
            maptype_accepted
              (kwargs_get ({[ "scale" := VInt sc ]} : gmap string value)
                 "maptype"))
    by (intros sc Ht; vm_compute in Ht; discriminate Ht).
  assert (Hsz : forall sc : Z,
            size_accepted
              (kwargs_get ({[ "scale" := VInt sc ]} : gmap string value)
                 "size"))
    by (intros sc Ht; vm_compute in Ht; discriminate Ht).
  assert (Hsty : style_accepted
                   (kwargs_get ({[ "scale" := VInt 2 ]} : gmap string value)
                      "style"))
    by (intros Ht; vm_compute in Ht; discriminate Ht).
  assert (Hsc : scale_accepted
                  (kwargs_get ({[ "scale" := VInt 2 ]} : gmap string value)
                     "scale"))
    by (intros _; vm_compute; reflexivity).
  split.
  - apply (proj1 (@google_scale_validation sample_env 0 0 0 0 10
                    {[ "scale" := VInt 3 ]} google_world (Hmt 3%Z) (Hsz 3%Z)));
      vm_compute; reflexivity.
  - destruct (proj2 (@google_scale_validation sample_env 0 0 0 0 10
                       {[ "scale" := VInt 2 ]} google_world (Hmt 2%Z) (Hsz 2%Z))
                Hsc (mkImageManager None "RGBA")
                [VInt 256; VInt 256] (VInt 256) (VInt 256) 256%Z 256%Z 2%Z
                Hsty eq_refl eq_refl eq_refl
                (or_introl (or_introl eq_refl))
                eq_refl eq_refl eq_refl eq_refl eq_refl eq_refl)
      as (r & md & w' & E & _ & Hok).
    destruct (Hok sample_env_reliable eq_refl ltac:(lia)
                ltac:(split; lra)) as (img & box' & ->).
    exists img, box', w'. exact E.
Defined.

(** Claim C8 as stated fails: [scale=0] is not one of 1, 2 and 4, yet
    the call goes through, with the default scale 2. *)
Lemma google_scale_zero_accepted :
  (GoogleManager_init sample_os ∅).2 = Ok google_manager /\
  in_ints (VInt 0) [1; 2; 4]%Z = false /\
  exists (img : Image) (box' : bbox) (w' : World),
    @GoogleManager_create_map sample_env (0, 0, 0, 0)%R 10
      {[ "scale" := VInt 0 ]} google_world
    = (Ok (Some img, box'), w') /\
    img_width img = 512%Z /\ img_height img = 512%Z.
Proof.
  split; [vm_compute; reflexivity|]. split; [reflexivity|].
  destruct (@GoogleManager_create_map_run sample_env 0 0 0 0 10
              {[ "scale" := VInt 0 ]} google_world
              (mkImageManager None "RGBA")
              [VInt 256; VInt 256] (VInt 256) (VInt 256) 256%Z 256%Z 2%Z)
    as (r & md & items & w' & E & _ & _ & Hok);
    try (intros Ht; vm_compute in Ht; discriminate Ht);
    try reflexivity.
  { left. left. vm_compute. reflexivity. }
  destruct (Hok sample_env_reliable eq_refl ltac:(lia) ltac:(split; lra))
    as (box' & ->).
  eexists _, box', w'. split; [exact E|]. split; reflexivity.
Qed.

(* ================================================================= *)
(** * Further properties *)

(** ** Shifts and ranges of [adjust.py] *)

Section PixelShifts.
Import adjust.
Local Open Scope R_scope.










End PixelShifts.

(** ** The tile rectangle of a box *)

Section TileRectangles.
Local Open Scope R_scope.







End TileRectangles.

(** ** The tile cache *)

Section TileCache.
Context `{Env}.

Lemma retrieve_tile_image_hit (c : coord) (zoom : Z) (w : World)
    (fn : string) :
  (get_local_filename c zoom w).1 = Ok fn ->
  is_Some (files w !! fn) ->
  retrieve_tile_image c zoom w = (Ok fn, logged (EvRetrieve c zoom) w).
Proof.
  intros Hfn Hfile. unfold retrieve_tile_image.
  rewrite (bind_ok _ _ _ (logged (EvRetrieve c zoom) w) tt) by reflexivity.
  rewrite (bind_ok _ _ _ _ _
             (reads_run _ w (logged (EvRetrieve c zoom) w) _
                (reads_get_local_filename c zoom) eq_refl Hfn)).
  run. rewrite bool_decide_eq_true_2 by assumption. reflexivity.
Qed.

Lemma retrieve_tile_image_ok_inv (c : coord) (zoom : Z) (w w' : World)
    (fn : string) :
  retrieve_tile_image c zoom w = (Ok fn, w') ->
  self w' = self w /\
  (get_local_filename c zoom w).1 = Ok fn /\
  is_Some (files w' !! fn) /\
  (forall f : string, is_Some (files w !! f) -> is_Some (files w' !! f)).
Proof.
  set (w1 := logged (EvRetrieve c zoom) w).
  unfold retrieve_tile_image.
  rewrite (bind_ok _ _ _ w1 tt) by reflexivity.
  pose proof (reads_run _ w w1 _ (reads_get_local_filename c zoom) eq_refl eq_refl)
    as Hfn.
  destruct ((get_local_filename c zoom w).1) as [fn0 | e] eqn:Efn.
  2:{ rewrite (bind_raise _ _ _ _ _ Hfn). intros [=]. }
  rewrite (bind_ok _ _ _ _ _ Hfn). run.
  destruct (files w !! fn0) as [body|] eqn:Efile.
  - rewrite bool_decide_eq_true_2 by eauto. cbn.
    intros [= <- <-]. cbn. rewrite Efile. eauto.
  - rewrite bool_decide_eq_false_2 by (intros [? ?]; discriminate). cbn.
    pose proof (reads_run _ w w1 _ (reads_get_tile_url c zoom) eq_refl eq_refl)
      as Hurl.
    destruct ((get_tile_url c zoom w).1) as [url | e] eqn:Eurl; rewrite Hurl;
      [|intros [=]].
    unfold urlretrieve, transfer. run.
    destruct (http_get (fetches w) url) as [body | e [partial|]]; cbn;
      intros [= <- <-]. cbn.
    split; [reflexivity|]. split; [reflexivity|].
    split; [rewrite lookup_insert; destruct (decide (fn0 = fn0)); [eauto | contradiction]|].
    intros f Hf. rewrite lookup_insert. destruct (decide (fn0 = f)); eauto.
Qed.

(** A tile that was retrieved is not downloaded again: a second
    [retrieve_tile_image] of the same tile returns the same file and only
    records the call. *)
Theorem retrieve_tile_image_twice (c : coord) (zoom : Z) (w w' : World)
    (fn : string) :
  retrieve_tile_image c zoom w = (Ok fn, w') ->
  retrieve_tile_image c zoom w' = (Ok fn, logged (EvRetrieve c zoom) w').
Proof.
  intros E. destruct (retrieve_tile_image_ok_inv _ _ _ _ _ E)
    as (Hs & Hfn & Hfile & _).
  apply retrieve_tile_image_hit; [|exact Hfile].
  now rewrite (reads_run _ w w' _ (reads_get_local_filename c zoom) Hs eq_refl).
Qed.

Lemma get_local_filename_coord (c c' : coord) (zoom : Z) (w : World) :
  fmt_d_num (coord_0 c) = fmt_d_num (coord_0 c') ->
  fmt_d_num (coord_1 c) = fmt_d_num (coord_1 c') ->
  get_local_filename c zoom w = get_local_filename c' zoom w.
Proof. intros E0 E1. unfold get_local_filename. now rewrite E0, E1. Qed.

(** The cache file of a Google map keeps of the box only the integer
    parts of [minlat] and [maxlat].  Once a map was retrieved, any box
    with the same integer parts, whatever its longitudes, is served that
    file without a download. *)
Theorem bbox_cache_ignores_longitudes
    (minlat maxlat minlon maxlon minlat' maxlat' minlon' maxlon' : R)
    (zoom : Z) (w w' : World) (fn : string) :
  int minlat' = int minlat -> int maxlat' = int maxlat ->
  retrieve_tile_image (BBox minlat maxlat minlon maxlon) zoom w = (Ok fn, w') ->
  retrieve_tile_image (BBox minlat' maxlat' minlon' maxlon') zoom w'
  = (Ok fn, logged (EvRetrieve (BBox minlat' maxlat' minlon' maxlon') zoom) w').
Proof.
  intros E0 E1 E. destruct (retrieve_tile_image_ok_inv _ _ _ _ _ E)
    as (Hs & Hfn & Hfile & _).
  apply retrieve_tile_image_hit; [|exact Hfile].
  rewrite (get_local_filename_coord (BBox minlat' maxlat' minlon' maxlon')
             (BBox minlat maxlat minlon maxlon))
    by (cbn; congruence).
  now rewrite (reads_run _ w w' _ (reads_get_local_filename _ zoom) Hs eq_refl).
Qed.

End TileCache.

(** ** Construction of the managers *)

Lemma MapManager_init_fields (cls : klass) (os : OS)
    (kwargs : gmap string value) (out : list string) (s : MapManager) :
  MapManager_init cls os kwargs = (out, Ok s) ->
  exists (c srv : string),
    resolve_cache os (kwargs_get kwargs "cache") = (out, Ok c) /\
    resolve_server (kwargs_get kwargs "server") = Ok srv /\
    s = mkMapManager cls c srv (make_cache_prefix srv)
          (Some (mkImageManager None "RGBA")) None None None None None None.
Proof.
  unfold MapManager_init.
  destruct (resolve_cache os (kwargs_get kwargs "cache")) as [out' [c | e]];
    [|intros [= _ E]; discriminate E].
  destruct (resolve_server (kwargs_get kwargs "server")) as [srv | e];
    cbn; intros [= <- <-]; eauto.
Qed.




Section SharedCache.
Context `{Env}.

(** [StamenManager] and [GoogleManager] replace [self.server] after the
    prefix was computed, so managers made with the same arguments share
    one prefix although their servers differ; with the same map type, a
    Stamen tile [(x, y)] and a Google box whose [minlat] and [maxlat]
    have the integer parts [x] and [y] are given the same cache file. *)
Theorem stamen_google_share_cache_file
    (os : OS) (kwargs : gmap string value) (o2 o3 : list string)
    (s2 s3 : MapManager) (w2 w3 : World) (mt : string) (zoom x y : Z)
    (minlat maxlat minlon maxlon : R) :
  StamenManager_init os kwargs = (o2, Ok s2) ->
  GoogleManager_init os kwargs = (o3, Ok s3) ->
  cache (self w2) = cache s2 -> cache_prefix (self w2) = cache_prefix s2 ->
  maptype (self w2) = Some (VStr mt) ->
  cache (self w3) = cache s3 -> cache_prefix (self w3) = cache_prefix s3 ->
  maptype (self w3) = Some (VStr mt) ->
  int minlat = x -> int maxlat = y ->
  server s2 <> server s3 /\
  exists fn : string,
    get_local_filename (Tile x y) zoom w2 = (Ok fn, w2) /\
    get_local_filename (BBox minlat maxlat minlon maxlon) zoom w3
    = (Ok fn, w3).
Proof.
  unfold StamenManager_init, GoogleManager_init.
  destruct (MapManager_init StamenManagerClass os kwargs) as [out2 [m2 | e2]]
    eqn:E2; [|intros [= _ E]; discriminate E].
  destruct (MapManager_init GoogleManagerClass os kwargs) as [out3 [m3 | e3]]
    eqn:E3; [|intros _ [= _ E]; discriminate E].
  destruct (MapManager_init_fields _ _ _ _ _ E2) as (c & srv & Ec & Es & ->).
  destruct (MapManager_init_fields _ _ _ _ _ E3) as (c' & srv' & Ec' & Es' & ->).
  assert (c' = c) by congruence. assert (srv' = srv) by congruence. subst c' srv'.
  cbn. intros [= _ <-].
  destruct (if truthy (kwargs_get kwargs "language") then _ else _)
    as [language | e]; [|intros [= _ E]; discriminate E].
  destruct (if truthy (kwargs_get kwargs "region") then _ else _)
    as [region | e]; [|intros [= _ E]; discriminate E].
  destruct (if truthy (kwargs_get kwargs "sensor") then _ else _)
    as [sensor | e]; [|intros [= _ E]; discriminate E].
  cbn. intros [= _ <-]. cbn.
  intros Hc2 Hp2 Hm2 Hc3 Hp3 Hm3 Hx Hy. split.
  - intros E. apply (f_equal (String.get 7)) in E. vm_compute in E.
    discriminate E.
  - exists (tile_filename (self w2) mt zoom x y).
    split; [now apply get_local_filename_tile|].
    unfold get_local_filename. run. rewrite Hm3. cbn.
    unfold tile_filename. now rewrite Hc2, Hp2, Hc3, Hp3, Hx, Hy.
Qed.

End SharedCache.

Section CacheWitnesses.
Local Open Scope R_scope.

Lemma retrieve_tile_image_twice_witness :
  let w' := (@retrieve_tile_image sample_env (Tile 1 2) 3 osm_world).2 in
  @retrieve_tile_image sample_env (Tile 1 2) 3 w'
  = (Ok "/tmp/mappie-6ef42-_3_1_2.png", logged (EvRetrieve (Tile 1 2) 3) w').
Proof.
  apply (@retrieve_tile_image_twice sample_env (Tile 1 2) 3 osm_world).
  vm_compute. reflexivity.
Defined.

Lemma google_terrain_retrieve (minlat maxlat minlon maxlon : R) (zoom : Z) :
  exists (fn : string) (w' : World),
    @retrieve_tile_image sample_env (BBox minlat maxlat minlon maxlon) zoom
      google_terrain_world
    = (Ok fn, w').
Proof.
  destruct (@retrieve_tile_image_run sample_env
              (BBox minlat maxlat minlon maxlon) zoom google_terrain_world)
    as (r & w' & E & _ & _ & _ & _ & Hok).
  destruct (@get_tile_url_google_ok sample_env
              (BBox minlat maxlat minlon maxlon) zoom google_terrain_world
              (VInt 256) (VInt 256) (VInt 2) VNone VNone VNone "terrain" 2)
    as [url Eurl]; try reflexivity.
  { intros [=]. }
  destruct (Hok sample_env_reliable
              (tile_filename (self google_terrain_world) "terrain" zoom
                 (int minlat) (int maxlat)) url)
    as [-> _]; [reflexivity | now rewrite Eurl |].
  eauto.
Qed.

Lemma bbox_cache_ignores_longitudes_witness :
  exists (fn : string) (w' : World),
    @retrieve_tile_image sample_env (BBox (3 / 2) (5 / 2) 0 10) 3
      google_terrain_world
    = (Ok fn, w') /\
    @retrieve_tile_image sample_env (BBox (5 / 4) (11 / 4) 50 60) 3 w'
    = (Ok fn, logged (EvRetrieve (BBox (5 / 4) (11 / 4) 50 60) 3) w').
Proof.
  destruct (google_terrain_retrieve (3 / 2) (5 / 2) 0 10 3) as (fn & w' & E).
  exists fn, w'. split; [exact E|].
  apply (@bbox_cache_ignores_longitudes sample_env
           (3 / 2) (5 / 2) 0 10 (5 / 4) (11 / 4) 50 60 3
           google_terrain_world w' fn).
  - rewrite (int_floor (5 / 4) 1), (int_floor (3 / 2) 1); (reflexivity || lra).
  - rewrite (int_floor (11 / 4) 2), (int_floor (5 / 2) 2); (reflexivity || lra).
  - exact E.
Defined.

Lemma stamen_google_share_cache_file_witness :
  server stamen_manager <> server google_manager /\
  exists fn : string,
    @get_local_filename sample_env (Tile 1 2) 3 stamen_world
    = (Ok fn, stamen_world) /\
    @get_local_filename sample_env (BBox (3 / 2) (5 / 2) 0 10) 3
      google_terrain_world
    = (Ok fn, google_terrain_world).
Proof.
  apply (@stamen_google_share_cache_file sample_env sample_os ∅
           ["Using /tmp to cache maptiles."] ["Using /tmp to cache maptiles."]
           stamen_manager google_manager stamen_world google_terrain_world
           "terrain" 3 1 2 (3 / 2) (5 / 2) 0 10);
    try (vm_compute; reflexivity).
  - apply int_floor; lra.
  - apply int_floor; lra.
Defined.

End CacheWitnesses.

(** ** The image manager *)

Section ImageManagers.
Context `{Env}.


(** [destroy_image] always lets the next [prepare_image] through, even
    with [overwrite=False]; the image made then is blank, of the size
    asked for and of the manager's mode. *)
Theorem destroy_then_prepare (width height : Z) (w : World)
    (m : ImageManager) :
  manager (self w) = Some m ->
  exists w' : World,
    (destroy_image ;; prepare_image width height false ;; get_image) w
    = (Ok (Some (mkImage (next_id w) (mode m) width height [])), w') /\
    created (trace w') = created (trace w) ++ [(mode m, width, height)].
Proof.
  intros Hm. unfold destroy_image, prepare_image, create_image, get_image,
    the_manager, set_manager.
  run. rewrite Hm. cbn.
  eexists. split; [reflexivity|]. cbn. now rewrite created_app.
Qed.

End ImageManagers.


Lemma destroy_then_prepare_witness :
  exists w' : World,
    (destroy_image ;; prepare_image 512 256 false ;; get_image)
      osm_world_with_image
    = (Ok (Some (mkImage 1 "RGBA" 512 256 [])), w') /\
    created (trace w')
    = created (trace osm_world_with_image) ++ [("RGBA", 512, 256)%Z].
Proof.
  apply (destroy_then_prepare 512 256 osm_world_with_image
           (mkImageManager (Some old_image) "RGBA")).
  reflexivity.
Defined.

(** ** The option checks of the providers *)

Section OptionChecks.
Context `{Env}.

(** [StamenManager.create_map] checks the map type before it touches
    anything: a rejected one raises with the world as it was, and a
    missing or accepted one is assigned, [terrain] by default, before
    [MapManager.create_map] runs. *)
Theorem stamen_maptype_check (box : bbox) (zoom : Z)
    (kwargs : gmap string value) (w : World) :
  (truthy (kwargs_get kwargs "maptype") = true ->
   isinstance_str (kwargs_get kwargs "maptype")
   && in_strs (kwargs_get kwargs "maptype") ["terrain"; "watercolor"; "toner"]
   = false ->
   StamenManager_create_map box zoom kwargs w
   = (Raise (ValueError
        "Invalid maptype specified, must be 'terrain', 'watercolor', or 'toner'."),
      w))
  /\
  (truthy (kwargs_get kwargs "maptype") = true ->
   isinstance_str (kwargs_get kwargs "maptype")
   && in_strs (kwargs_get kwargs "maptype") ["terrain"; "watercolor"; "toner"]
   = true ->
   StamenManager_create_map box zoom kwargs w
   = MapManager_create_map box zoom kwargs
       (set_maptype (kwargs_get kwargs "maptype") w).2)
  /\
  (truthy (kwargs_get kwargs "maptype") = false ->
   StamenManager_create_map box zoom kwargs w
   = MapManager_create_map box zoom kwargs
       (set_maptype (VStr "terrain") w).2).
Proof.
  unfold StamenManager_create_map. split; [|split].
  - intros -> Hbad. apply andb_false_iff in Hbad.
    destruct Hbad as [-> | ->]; cbn; [reflexivity|].
    now rewrite orb_true_r.
  - intros -> Hok. apply andb_true_iff in Hok. destruct Hok as [-> ->].
    reflexivity.
  - intros ->. reflexivity.
Qed.

(** A non-empty [markers] argument, and after it a non-empty [paths]
    argument, stops [GoogleManager.create_map] with a [NameError] once
    the checks before it are passed: the method tests names it never
    bound.  Nothing is logged, fetched or written. *)
Theorem google_markers_unusable
    (minlat maxlat minlon maxlon : R) (zoom : Z)
    (kwargs : gmap string value) (w : World) :
  maptype_accepted (kwargs_get kwargs "maptype") ->
  size_accepted (kwargs_get kwargs "size") ->
  scale_accepted (kwargs_get kwargs "scale") ->
  style_accepted (kwargs_get kwargs "style") ->
  (truthy (kwargs_get kwargs "markers") = true ->
   exists w' : World,
     GoogleManager_create_map (minlat, maxlat, minlon, maxlon) zoom kwargs w
     = (Raise (NameError "global name 'markers' is not defined"), w') /\
     trace w' = trace w /\ files w' = files w /\ fetches w' = fetches w /\
     manager (self w') = manager (self w))
  /\
  (truthy (kwargs_get kwargs "markers") = false ->
   truthy (kwargs_get kwargs "paths") = true ->
   exists w' : World,
     GoogleManager_create_map (minlat, maxlat, minlon, maxlon) zoom kwargs w
     = (Raise (NameError "global name 'paths' is not defined"), w') /\
     trace w' = trace w /\ files w' = files w /\ fetches w' = fetches w /\
     manager (self w') = manager (self w)).
Proof.
  intros Hmt Hsz Hsc Hsty. split.
  - intros Hmk. unfold GoogleManager_create_map. cbv zeta.
    rewrite maptype_phase by assumption.
    rewrite size_phase by assumption.
    rewrite scale_phase by assumption.
    rewrite style_phase by assumption.
    rewrite Hmk.
    eexists. split; [reflexivity|]. repeat split.
  - intros Hmk Hpt. unfold GoogleManager_create_map. cbv zeta.
    rewrite maptype_phase by assumption.
    rewrite size_phase by assumption.
    rewrite scale_phase by assumption.
    rewrite style_phase by assumption.
    rewrite markers_phase by assumption.
    rewrite Hpt.
    eexists. split; [reflexivity|]. repeat split.
Qed.

End OptionChecks.

Lemma google_markers_unusable_witness :
  (exists w' : World,
     @GoogleManager_create_map sample_env (0, 0, 0, 0)%R 10
       {[ "markers" := VList [VTuple [VInt 1; VInt 2]] ]} google_world
     = (Raise (NameError "global name 'markers' is not defined"), w') /\
     trace w' = trace google_world /\ files w' = files google_world /\
     fetches w' = fetches google_world /\
     manager (self w') = manager (self google_world)).
Proof.
  assert (Hnone : forall key : string,
            key <> "markers" ->
            truthy (kwargs_get
                      ({[ "markers" := VList [VTuple [VInt 1; VInt 2]] ]}
                         : gmap string value) key) = true -> False).
  { intros key Hk. unfold kwargs_get. rewrite lookup_singleton_ne by auto.
    discriminate. }
  apply (proj1 (@google_markers_unusable sample_env 0 0 0 0 10
                  {[ "markers" := VList [VTuple [VInt 1; VInt 2]] ]}
                  google_world
                  (fun Ht => False_ind _ (Hnone "maptype" ltac:(discriminate) Ht))
                  (fun Ht => False_ind _ (Hnone "size" ltac:(discriminate) Ht))
                  (fun Ht => False_ind _ (Hnone "scale" ltac:(discriminate) Ht))
                  (fun Ht => False_ind _ (Hnone "style" ltac:(discriminate) Ht)))).
  vm_compute. reflexivity.
Defined.

(** ** A second [create_map] *)

Lemma downloads_app (t1 t2 : list event) :
  downloads (t1 ++ t2) = downloads t1 ++ downloads t2.
Proof. apply omap_app. Qed.

Section ForEach.
Context {A : Type} (I : list A -> World -> Prop) (body : A -> M unit).

Lemma for_each_acc (l : list A) :
  (forall (a : A) (done : list A) (w : World),
     a ∈ l -> I done w ->
     exists w', body a w = (Ok tt, w') /\ I (done ++ [a]) w') ->
  forall (done : list A) (w : World),
    I done w ->
    exists w', for_each l body w = (Ok tt, w') /\ I (done ++ l) w'.
Proof.
  induction l as [|a l IH]; intros Hbody done w HI.
  - exists w. split; [reflexivity|]. now rewrite app_nil_r.
  - destruct (Hbody a done w) as (w1 & E1 & H1); [left | exact HI |].
    destruct (IH (fun a' done' w' Ha => Hbody a' done' w' (list_elem_of_further _ _ _ Ha))
                (done ++ [a]) w1 H1)
      as (w2 & E2 & H2).
    exists w2. cbn [for_each]. rewrite (bind_ok _ _ _ _ _ E1).
    split; [exact E2|]. now rewrite <- app_assoc in H2.
Qed.

End ForEach.

Section SecondCall.
Context `{Env}.
Local Open Scope Z_scope.

Lemma paste_image_file_ok (f : string) (xy : Z * Z) (w : World)
    (m : ImageManager) (img : Image) (body : string) :
  manager (self w) = Some m -> image m = Some img ->
  files w !! f = Some body -> pil_open body = Ok tt ->
  exists w' : World,
    paste_image_file f xy w = (Ok tt, w') /\
    same_config (self w) (self w') /\
    manager (self w')
    = Some (mkImageManager
              (Some (mkImage (img_id img) (img_mode img) (img_width img)
                       (img_height img) (img_pastes img ++ [(f, xy)])))
              (mode m)) /\
    files w' = files w /\ fetches w' = fetches w /\ next_id w' = next_id w /\
    trace w' = trace w ++ [EvPaste f xy].
Proof.
  intros Hm Hi Hf Hp.
  unfold paste_image_file, paste_image, load_image_file, the_manager,
    set_manager.
  run. rewrite Hm. cbn. rewrite Hi. cbn. rewrite Hf. cbn. rewrite Hp. cbn.
  rewrite Hm. cbn. rewrite Hi. cbn.
  eexists. split; [reflexivity|]. cbn. repeat split.
Qed.

Lemma pass_refl (mt : string) (zoom minX minY : Z) (w : World) :
  pass mt zoom minX minY [] w w.
Proof.
  split; try reflexivity.
  - apply same_config_refl.
  - intros m img Hm Hi. rewrite Hm. cbn. rewrite app_nil_r.
    destruct m as [im md], img. cbn in *. now subst im.
  - intros t Ht. inversion Ht.
  - intros f Hf. exact Hf.
Qed.

Section TileLoops.
Context (mt : string) (zoom minX minY : Z) (w0 : World)
  (J : World -> Prop).

Let body (x y : Z) : M unit :=
  fname ← retrieve_tile_image (Tile x y) zoom;
  paste_image_file fname (256 * (x - minX), 256 * (y - minY)).

Lemma tile_loops_acc (xs ys : list Z) :
  (forall (x y : Z) (done : list (Z * Z)) (w : World),
     x ∈ xs -> y ∈ ys ->
     pass mt zoom minX minY done w0 w -> J w ->
     exists w', body x y w = (Ok tt, w') /\
                pass mt zoom minX minY (done ++ [(x, y)]) w0 w' /\ J w') ->
  forall w : World,
    pass mt zoom minX minY [] w0 w -> J w ->
    exists w',
      for_each xs (fun x => for_each ys (fun y => body x y)) w = (Ok tt, w') /\
      pass mt zoom minX minY (x ← xs; y ← ys; [(x, y)]) w0 w' /\ J w'.
Proof.
  intros Hbody w HP HJ.
  destruct (for_each_acc
              (fun done_x w =>
                 pass mt zoom minX minY (x ← done_x; y ← ys; [(x, y)]) w0 w
                 /\ J w)
              (fun x => for_each ys (fun y => body x y)) xs)
    with (done := @nil Z) (w := w) as (w' & E & HP' & HJ').
  - intros x done_x w1 Hx [HP1 HJ1].
    destruct (for_each_acc
                (fun done_y w =>
                   pass mt zoom minX minY
                     ((x ← done_x; y ← ys; [(x, y)]) ++ (y ← done_y; [(x, y)]))
                     w0 w
                   /\ J w)
                (fun y => body x y) ys)
      with (done := @nil Z) (w := w1) as (w2 & E2 & HP2 & HJ2).
    + intros y done_y w2 Hy [HP2 HJ2].
      destruct (Hbody x y _ w2 Hx Hy HP2 HJ2) as (w3 & E3 & HP3 & HJ3).
      exists w3. split; [exact E3|]. split; [|exact HJ3].
      rewrite bind_app, bind_singleton, app_assoc. exact HP3.
    + split; [|exact HJ1]. cbn. now rewrite app_nil_r.
    + exists w2. split; [exact E2|]. split; [|exact HJ2].
      rewrite bind_app, bind_singleton. exact HP2.
  - split; [exact HP | exact HJ].
  - exists w'. auto.
Qed.

End TileLoops.

Lemma pass_step (mt : string) (zoom minX minY x y : Z)
    (done : list (Z * Z)) (w0 w w1 w2 : World) (m0 : ImageManager)
    (img0 : Image) :
  manager (self w0) = Some m0 -> image m0 = Some img0 ->
  pass mt zoom minX minY done w0 w ->
  self w1 = self w -> next_id w1 = next_id w ->
  created (trace w1) = created (trace w) ->
  keeps_files w w1 ->
  is_Some (files w1 !! tile_filename (self w0) mt zoom x y) ->
  same_config (self w1) (self w2) ->
  (forall m img, manager (self w1) = Some m -> image m = Some img ->
     manager (self w2)
     = Some (mkImageManager
               (Some (mkImage (img_id img) (img_mode img) (img_width img)
                        (img_height img)
                        (img_pastes img
                         ++ [tile_paste (self w0) mt zoom minX minY (x, y)])))
               (mode m))) ->
  files w2 = files w1 -> next_id w2 = next_id w1 ->
  created (trace w2) = created (trace w1) ->
  pass mt zoom minX minY (done ++ [(x, y)]) w0 w2.
Proof.
  intros Hm0 Hi0 [C I Ca K N Cr] Hs Hn Hc Hk Hfile C2 I2 F2 N2 Cr2.
  split.
  - eapply same_config_trans; [exact C|]. rewrite <- Hs. exact C2.
  - intros m img Hm Hi. rewrite Hm0 in Hm. injection Hm as <-.
    rewrite Hi0 in Hi. injection Hi as <-.
    specialize (I m0 img0 Hm0 Hi0). rewrite <- Hs in I.
    rewrite (I2 _ _ I eq_refl). cbn.
    now rewrite fmap_app, app_assoc.
  - intros t Ht. rewrite F2. apply elem_of_app in Ht. destruct Ht as [Ht | Ht].
    + apply Hk, Ca, Ht.
    + apply list_elem_of_singleton in Ht. subst t. exact Hfile.
  - intros f Hf. rewrite F2. apply Hk, K, Hf.
  - congruence.
  - congruence.
Qed.

Lemma tile_body_fetch (mt : string) (zoom minX minY x y : Z)
    (done : list (Z * Z)) (w0 w : World) (m0 : ImageManager) (img0 : Image) :
  reliable ->
  manager (self w0) = Some m0 -> image m0 = Some img0 ->
  maptype (self w0) = Some (VStr mt) ->
  class_of (self w0) <> GoogleManagerClass ->
  pass mt zoom minX minY done w0 w ->
  exists w',
    (fname ← retrieve_tile_image (Tile x y) zoom;
     paste_image_file fname (256 * (x - minX), 256 * (y - minY))) w
    = (Ok tt, w') /\
    pass mt zoom minX minY (done ++ [(x, y)]) w0 w'.
Proof.
  intros Hrel Hm0 Hi0 Hmt Hcl HP.
  pose proof (ps_config _ _ _ _ _ _ _ HP) as C.
  pose proof C as (Ecl & _ & _ & _ & Emt & _).
  assert (Hmtw : maptype (self w) = Some (VStr mt)) by congruence.
  assert (Hclw : class_of (self w) <> GoogleManagerClass) by congruence.
  destruct (retrieve_tile_image_run (Tile x y) zoom w)
    as (r & w1 & E1 & Hs & Hn & Hc & _ & Hok).
  destruct (get_tile_url_tile x y zoom mt w Hmtw Hclw) as [url Eurl].
  destruct (Hok Hrel (tile_filename (self w) mt zoom x y) url)
    as [-> Hfile];
    [now rewrite (get_local_filename_tile _ _ _ _ _ Hmtw) | now rewrite Eurl |].
  destruct (retrieve_tile_image_ok_inv _ _ _ _ _ E1) as (_ & _ & _ & Hk).
  rewrite (tile_filename_config _ _ _ _ _ _ C) in *.
  destruct Hfile as [body Hbody].
  pose proof (ps_image _ _ _ _ _ _ _ HP _ _ Hm0 Hi0) as Mw.
  rewrite <- Hs in Mw.
  destruct (paste_image_file_ok (tile_filename (self w0) mt zoom x y)
              (256 * (x - minX), 256 * (y - minY)) w1 _ _ body Mw eq_refl
              Hbody (proj2 Hrel body))
    as (w2 & E2 & C2 & M2 & F2 & _ & N2 & T2).
  exists w2. split; [now rewrite (bind_ok _ _ _ _ _ E1)|].
  apply (pass_step mt zoom minX minY x y done w0 w w1 w2 m0 img0);
    try assumption.
  - eauto.
  - intros m img Hm Hi. rewrite Mw in Hm. injection Hm as <-.
    injection Hi as <-. exact M2.
  - rewrite T2, created_app. cbn. now rewrite app_nil_r.
Qed.

Lemma tile_body_hit (mt : string) (zoom minX minY x y : Z)
    (done : list (Z * Z)) (w0 w : World) (m0 : ImageManager) (img0 : Image) :
  (forall body : string, pil_open body = Ok tt) ->
  manager (self w0) = Some m0 -> image m0 = Some img0 ->
  maptype (self w0) = Some (VStr mt) ->
  is_Some (files w0 !! tile_filename (self w0) mt zoom x y) ->
  pass mt zoom minX minY done w0 w ->
  downloads (trace w) = downloads (trace w0) /\ fetches w = fetches w0
  /\ files w = files w0 ->
  exists w',
    (fname ← retrieve_tile_image (Tile x y) zoom;
     paste_image_file fname (256 * (x - minX), 256 * (y - minY))) w
    = (Ok tt, w') /\
    pass mt zoom minX minY (done ++ [(x, y)]) w0 w' /\
    (downloads (trace w') = downloads (trace w0) /\ fetches w' = fetches w0
     /\ files w' = files w0).
Proof.
  intros Hpil Hm0 Hi0 Hmt Hfile0 HP (Qd & Qf & Qfiles).
  pose proof (ps_config _ _ _ _ _ _ _ HP) as C.
  pose proof C as (Ecl & _ & _ & _ & Emt & _).
  assert (Hmtw : maptype (self w) = Some (VStr mt)) by congruence.
  set (fn := tile_filename (self w0) mt zoom x y) in *.
  assert (Efn : (get_local_filename (Tile x y) zoom w).1 = Ok fn).
  { rewrite (get_local_filename_tile _ _ _ _ _ Hmtw). cbn.
    now rewrite (tile_filename_config _ _ _ _ _ _ C). }
  assert (Hfile : is_Some (files w !! fn)) by now rewrite Qfiles.
  pose proof (retrieve_tile_image_hit _ _ _ _ Efn Hfile) as E1.
  set (w1 := logged (EvRetrieve (Tile x y) zoom) w) in *.
  destruct Hfile as [body Hbody].
  pose proof (ps_image _ _ _ _ _ _ _ HP _ _ Hm0 Hi0) as Mw.
  destruct (paste_image_file_ok fn (256 * (x - minX), 256 * (y - minY)) w1
              _ _ body Mw eq_refl Hbody (Hpil body))
    as (w2 & E2 & C2 & M2 & F2 & Fe2 & N2 & T2).
  exists w2. split; [now rewrite (bind_ok _ _ _ _ _ E1)|].
  split.
  - apply (pass_step mt zoom minX minY x y done w0 w w1 w2 m0 img0);
      try assumption; try reflexivity.
    + cbn. rewrite created_app. cbn. now rewrite app_nil_r.
    + intros f Hf. exact Hf.
    + cbn. eauto.
    + intros m img Hm Hi. cbn in Hm. rewrite Mw in Hm. injection Hm as <-.
      injection Hi as <-. exact M2.
    + rewrite T2, created_app. cbn. now rewrite app_nil_r.
  - rewrite T2, F2, Fe2. cbn. rewrite !downloads_app. cbn.
    rewrite !app_nil_r. auto.
Qed.

Lemma MapManager_create_map_unfold
    (minlat maxlat minlon maxlon : R) (zoom : Z)
    (kwargs : gmap string value) (w : World) (m : ImageManager)
    (minX minY maxX maxY : Z) :
  manager (self w) = Some m ->
  prepares kwargs m ->
  get_tile_coord minlon maxlat zoom = Ok (minX, minY) ->
  get_tile_coord maxlon minlat zoom = Ok (maxX, maxY) ->
  exists (md : string) (w2 : World),
    same_config (self w) (self w2) /\
    manager (self w2)
    = Some (mkImageManager
              (Some (mkImage (next_id w) md ((maxX - minX + 1) * 256)
                       ((maxY - minY + 1) * 256) [])) md) /\
    files w2 = files w /\ fetches w2 = fetches w /\
    downloads (trace w2) = downloads (trace w) /\
    forall (w3 : World) (m3 : ImageManager),
      for_each (range minX (maxX + 1)) (fun x =>
        for_each (range minY (maxY + 1)) (fun y =>
          fname ← retrieve_tile_image (Tile x y) zoom;
          paste_image_file fname (256 * (x - minX), 256 * (y - minY)))) w2
      = (Ok tt, w3) ->
      manager (self w3) = Some m3 ->
      MapManager_create_map (minlat, maxlat, minlon, maxlon) zoom kwargs w
      = (Ok (image m3, covered_box minX minY maxX maxY zoom), w3).
Proof.
  intros Hm Hprep Htl Hbr.
  destruct (read_color_run kwargs w m Hm)
    as (md & w1 & E1 & C1 & M1 & T1 & N1 & F1 & Fe1).
  destruct (read_overwrite_prepares kwargs (mkImageManager (image m) md)
              "Invalid 'overwrite' argument, must be True/False.")
    as (ov & Eov & Hov).
  { destruct Hprep as [? | [? ?]]; [now left | now right]. }
  destruct (prepare_image_run ((maxX - minX + 1) * 256) ((maxY - minY + 1) * 256)
              ov w1 _ M1 Hov)
    as (w2 & E2 & C2 & M2 & T2 & N2 & F2 & Fe2).
  cbn [mode] in *.
  exists md, w2.
  split; [eapply same_config_trans; eassumption|].
  split; [now rewrite M2, N1|].
  split; [congruence|]. split; [congruence|].
  split; [rewrite T2, T1, downloads_app; cbn; now rewrite app_nil_r|].
  intros w3 m3 E3 M3.
  unfold MapManager_create_map.
  rewrite (bind_ok _ _ w w (self w)) by reflexivity.
  rewrite Hm. rewrite bool_decide_eq_false_2 by discriminate.
  rewrite (bind_ok _ _ w w tt) by reflexivity.
  rewrite (bind_ok _ _ _ _ _ E1).
  rewrite Eov. rewrite (bind_ok _ _ w1 w1 ov) by reflexivity.
  rewrite Htl. rewrite (bind_ok _ _ w1 w1 (minX, minY)) by reflexivity.
  rewrite Hbr. rewrite (bind_ok _ _ w1 w1 (maxX, maxY)) by reflexivity.
  unfold covered_box.
  destruct (tile_nw_latlon (minX, minY) zoom) as [nmaxlat nminlon].
  destruct (tile_nw_latlon (maxX + 1, maxY + 1)%Z zoom) as [nminlat nmaxlon].
  rewrite (bind_ok _ _ _ _ _ E2).
  rewrite (bind_ok _ _ _ _ _ E3).
  rewrite (bind_ok _ _ _ _ _ (get_image_run _ _ M3)).
  reflexivity.
Qed.

Lemma MapManager_create_map_cached
    (minlat maxlat minlon maxlon : R) (zoom : Z)
    (kwargs : gmap string value) (w : World) (m : ImageManager) (mt : string)
    (minX minY maxX maxY : Z) :
  manager (self w) = Some m ->
  prepares kwargs m ->
  maptype (self w) = Some (VStr mt) ->
  (forall body : string, pil_open body = Ok tt) ->
  get_tile_coord minlon maxlat zoom = Ok (minX, minY) ->
  get_tile_coord maxlon minlat zoom = Ok (maxX, maxY) ->
  cached (self w) mt zoom (tile_grid minX minY maxX maxY) w ->
  exists (img : Image) (w' : World),
    MapManager_create_map (minlat, maxlat, minlon, maxlon) zoom kwargs w
    = (Ok (Some img, covered_box minX minY maxX maxY zoom), w') /\
    downloads (trace w') = downloads (trace w) /\
    fetches w' = fetches w /\ files w' = files w /\
    img_id img = next_id w /\
    img_width img = (maxX - minX + 1) * 256 /\
    img_height img = (maxY - minY + 1) * 256 /\
    img_pastes img
    = tile_paste (self w) mt zoom minX minY <$> tile_grid minX minY maxX maxY.
Proof.
  intros Hm Hprep Hmt Hpil Htl Hbr Hcached.
  destruct (MapManager_create_map_unfold minlat maxlat minlon maxlon zoom
              kwargs w m minX minY maxX maxY Hm Hprep Htl Hbr)
    as (md & w2 & C2 & M2 & F2 & Fe2 & D2 & Hrun).
  pose proof C2 as (_ & _ & _ & _ & Emt & _).
  destruct (tile_loops_acc mt zoom minX minY w2
              (fun w3 => downloads (trace w3) = downloads (trace w2) /\
                         fetches w3 = fetches w2 /\ files w3 = files w2)
              (range minX (maxX + 1)) (range minY (maxY + 1)))
    with (w := w2) as (w3 & E3 & HP3 & Qd & Qf & Qfiles).
  - intros x y done w3 Hx Hy HP HQ.
    eapply tile_body_hit; eauto; [congruence|].
    rewrite F2, (tile_filename_config _ _ _ _ _ _ C2).
    apply (Hcached (x, y)). unfold tile_grid.
    apply list_elem_of_bind. exists x. split; [|exact Hx].
    apply list_elem_of_bind. exists y. split; [|exact Hy].
    apply list_elem_of_singleton. reflexivity.
  - apply pass_refl.
  - auto.
  - pose proof (ps_image _ _ _ _ _ _ _ HP3 _ _ M2 eq_refl) as M3. cbn in M3.
    eexists _, w3. split; [apply (Hrun w3 _ E3 M3)|]. cbn.
    split; [congruence|]. split; [congruence|]. split; [congruence|].
    split; [reflexivity|]. split; [reflexivity|]. split; [reflexivity|].
    apply list_fmap_ext. intros _ xy _. now apply tile_paste_config.
Qed.

Lemma MapManager_create_map_fetching
    (minlat maxlat minlon maxlon : R) (zoom : Z)
    (kwargs : gmap string value) (w : World) (m : ImageManager) (mt : string)
    (minX minY maxX maxY : Z) :
  manager (self w) = Some m ->
  prepares kwargs m ->
  maptype (self w) = Some (VStr mt) ->
  class_of (self w) <> GoogleManagerClass ->
  reliable ->
  get_tile_coord minlon maxlat zoom = Ok (minX, minY) ->
  get_tile_coord maxlon minlat zoom = Ok (maxX, maxY) ->
  exists (img : Image) (w' : World),
    MapManager_create_map (minlat, maxlat, minlon, maxlon) zoom kwargs w
    = (Ok (Some img, covered_box minX minY maxX maxY zoom), w') /\
    same_config (self w) (self w') /\
    (manager (self w') ≫= image) = Some img /\
    cached (self w) mt zoom (tile_grid minX minY maxX maxY) w' /\
    keeps_files w w' /\
    img_width img = (maxX - minX + 1) * 256 /\
    img_height img = (maxY - minY + 1) * 256 /\
    img_pastes img
    = tile_paste (self w) mt zoom minX minY <$> tile_grid minX minY maxX maxY.
Proof.
  intros Hm Hprep Hmt Hcl Hrel Htl Hbr.
  destruct (MapManager_create_map_unfold minlat maxlat minlon maxlon zoom
              kwargs w m minX minY maxX maxY Hm Hprep Htl Hbr)
    as (md & w2 & C2 & M2 & F2 & Fe2 & D2 & Hrun).
  pose proof C2 as (Ecl & _ & _ & _ & Emt & _).
  destruct (tile_loops_acc mt zoom minX minY w2 (fun _ => True)
              (range minX (maxX + 1)) (range minY (maxY + 1)))
    with (w := w2) as (w3 & E3 & HP3 & _).
  - intros x y done w3 Hx Hy HP _.
    destruct (tile_body_fetch mt zoom minX minY x y done w2 w3 _ _
                Hrel M2 eq_refl ltac:(congruence) ltac:(congruence) HP)
      as (w4 & E4 & HP4).
    eauto.
  - apply pass_refl.
  - exact I.
  - pose proof (ps_image _ _ _ _ _ _ _ HP3 _ _ M2 eq_refl) as M3. cbn in M3.
    eexists _, w3. split; [apply (Hrun w3 _ E3 M3)|]. cbn.
    split; [eapply same_config_trans; [exact C2 | apply HP3]|].
    split; [now rewrite M3|].
    split.
    { intros t Ht. rewrite <- (tile_filename_config _ _ _ _ _ _ C2).
      now apply (ps_cached _ _ _ _ _ _ _ HP3). }
    split.
    { intros f Hf. apply (ps_keeps _ _ _ _ _ _ _ HP3). now rewrite F2. }
    split; [reflexivity|]. split; [reflexivity|].
    apply list_fmap_ext. intros _ xy _. now apply tile_paste_config.
Qed.

(** With every tile of the rectangle in the cache, [create_map] needs no
    network: whatever the servers would answer, it returns the stitched
    image and covered box, starts no download and writes no file. *)
Theorem create_map_warm_cache
    (minlat maxlat minlon maxlon : R) (zoom : Z)
    (kwargs : gmap string value) (w : World) (m : ImageManager) (mt : string)
    (minX minY maxX maxY : Z) :
  manager (self w) = Some m ->
  prepares kwargs m ->
  maptype (self w) = Some (VStr mt) ->
  (forall body : string, pil_open body = Ok tt) ->
  get_tile_coord minlon maxlat zoom = Ok (minX, minY) ->
  get_tile_coord maxlon minlat zoom = Ok (maxX, maxY) ->
  cached (self w) mt zoom (tile_grid minX minY maxX maxY) w ->
  exists (img : Image) (w' : World),
    MapManager_create_map (minlat, maxlat, minlon, maxlon) zoom kwargs w
    = (Ok (Some img, covered_box minX minY maxX maxY zoom), w') /\
    downloads (trace w') = downloads (trace w) /\
    fetches w' = fetches w /\ files w' = files w /\
    img_pastes img
    = tile_paste (self w) mt zoom minX minY <$> tile_grid minX minY maxX maxY.
Proof.
  intros Hm Hprep Hmt Hpil Htl Hbr Hcached.
  destruct (MapManager_create_map_cached minlat maxlat minlon maxlon zoom
              kwargs w m mt minX minY maxX maxY Hm Hprep Hmt Hpil Htl Hbr
              Hcached)
    as (img & w' & E & Hd & Hf & Hfiles & _ & _ & _ & Hp).
  exists img, w'. auto.
Qed.

(** A second [create_map] of the same box right after a successful one
    downloads nothing and writes nothing: every tile comes from the
    cache.  It returns the same box and an image with the same pastes,
    but a new image object. *)
Theorem create_map_twice
    (minlat maxlat minlon maxlon : R) (zoom : Z)
    (kwargs : gmap string value) (w : World) (m : ImageManager) (mt : string)
    (minX minY maxX maxY : Z) :
  manager (self w) = Some m ->
  overwrites kwargs ->
  maptype (self w) = Some (VStr mt) ->
  class_of (self w) <> GoogleManagerClass ->
  reliable ->
  get_tile_coord minlon maxlat zoom = Ok (minX, minY) ->
  get_tile_coord maxlon minlat zoom = Ok (maxX, maxY) ->
  exists (img1 img2 : Image) (box' : bbox) (w1 w2 : World),
    MapManager_create_map (minlat, maxlat, minlon, maxlon) zoom kwargs w
    = (Ok (Some img1, box'), w1) /\
    MapManager_create_map (minlat, maxlat, minlon, maxlon) zoom kwargs w1
    = (Ok (Some img2, box'), w2) /\
    downloads (trace w2) = downloads (trace w1) /\
    fetches w2 = fetches w1 /\ files w2 = files w1 /\
    img_pastes img2 = img_pastes img1 /\
    img_id img2 = next_id w1.
Proof.
  intros Hm Hov Hmt Hcl Hrel Htl Hbr.
  destruct (MapManager_create_map_fetching minlat maxlat minlon maxlon zoom
              kwargs w m mt minX minY maxX maxY Hm (or_introl Hov) Hmt Hcl
              Hrel Htl Hbr)
    as (img1 & w1 & E1 & C1 & M1 & Hcached & _ & _ & _ & Hp1).
  destruct (manager (self w1)) as [m1|] eqn:Em1; [|discriminate M1].
  pose proof C1 as (_ & _ & _ & _ & Emt & _).
  destruct (MapManager_create_map_cached minlat maxlat minlon maxlon zoom
              kwargs w1 m1 mt minX minY maxX maxY Em1 (or_introl Hov)
              ltac:(congruence) (proj2 Hrel) Htl Hbr)
    as (img2 & w2 & E2 & Hd & Hf & Hfiles & Hid & _ & _ & Hp2).
  { intros t Ht. rewrite (tile_filename_config _ _ _ _ _ _ C1).
    now apply Hcached. }
  exists img1, img2, (covered_box minX minY maxX maxY zoom), w1, w2.
  split; [exact E1|]. split; [exact E2|].
  split; [exact Hd|]. split; [exact Hf|]. split; [exact Hfiles|].
  split; [|exact Hid].
  rewrite Hp1, Hp2. apply list_fmap_ext. intros _ xy _.
  now apply tile_paste_config.
Qed.

End SecondCall.

Lemma create_map_warm_cache_witness :
  exists (img : Image) (w' : World),
    @MapManager_create_map offline_env (0, 0, -10, 10)%R 1 ∅ warm_world
    = (Ok (Some img, covered_box 0 1 1 1 1), w') /\
    downloads (trace w') = downloads (trace warm_world) /\
    fetches w' = fetches warm_world /\ files w' = files warm_world /\
    img_pastes img
    = tile_paste (self warm_world) "" 1 0 1 <$> tile_grid 0 1 1 1.
Proof.
  apply (@create_map_warm_cache offline_env 0 0 (-10) 10 1 ∅ warm_world
           (mkImageManager None "RGBA") "" 0 1 1 1).
  - reflexivity.
  - left. left. reflexivity.
  - reflexivity.
  - reflexivity.
  - apply get_tile_coord_equator; cbn; lra.
  - apply get_tile_coord_equator; cbn; lra.
  - intros t Ht. change (tile_grid 0 1 1 1) with [(0, 1); (1, 1)]%Z in Ht.
    apply elem_of_cons in Ht. destruct Ht as [-> | Ht].
    + vm_compute. eexists. reflexivity.
    + apply list_elem_of_singleton in Ht. subst t.
      vm_compute. eexists. reflexivity.
Defined.

Lemma create_map_twice_witness :
  exists (img1 img2 : Image) (box' : bbox) (w1 w2 : World),
    @MapManager_create_map sample_env (0, 0, -10, 10)%R 1 ∅ osm_world
    = (Ok (Some img1, box'), w1) /\
    @MapManager_create_map sample_env (0, 0, -10, 10)%R 1 ∅ w1
    = (Ok (Some img2, box'), w2) /\
    downloads (trace w2) = downloads (trace w1) /\
    fetches w2 = fetches w1 /\ files w2 = files w1 /\
    img_pastes img2 = img_pastes img1 /\
    img_id img2 = next_id w1.
Proof.
  apply (@create_map_twice sample_env 0 0 (-10) 10 1 ∅ osm_world
           (mkImageManager None "RGBA") "" 0 1 1 1).
  - reflexivity.
  - left. reflexivity.
  - reflexivity.
  - discriminate.
  - exact sample_env_reliable.
  - apply get_tile_coord_equator; cbn; lra.
  - apply get_tile_coord_equator; cbn; lra.
Defined.

(** ** The URL of a Google map *)

Lemma contains_double_amp (s : string) : contains "&&" s -> double_amp s = true.
Proof.
  intros (pre & post & ->). induction pre as [|c pre IH].
  - reflexivity.
  - change (String c pre +:+ ("&&" +:+ post))
      with (String c (pre +:+ ("&&" +:+ post))).
    cbn [double_amp]. rewrite IH. apply orb_true_r.
Qed.

Lemma suffix_final_amp (pre : string) : final_amp (pre +:+ "&") = true.
Proof.
  induction pre as [|c pre IH]; [reflexivity|].
  change (String c pre +:+ "&") with (String c (pre +:+ "&")).
  cbn [final_amp]. destruct (pre +:+ "&") eqn:E; [|exact IH].
  destruct pre; discriminate E.
Qed.

Lemma collapse_amp_cons2 (c c' : ascii) (s : string) :
  collapse_amp (String c (String c' s))
  = if Ascii.eqb c "&" then
      if Ascii.eqb c' "&" then collapse_amp (String c' s)
      else String c (collapse_amp (String c' s))
    else String c (collapse_amp (String c' s)).
Proof. reflexivity. Qed.

Lemma collapse_amp_head (c : ascii) (s : string) :
  exists t : string, collapse_amp (String c s) = String c t.
Proof.
  revert c. induction s as [|c' s IH]; intros c.
  - cbn. destruct (Ascii.eqb c "&"); eauto.
  - rewrite collapse_amp_cons2. destruct (Ascii.eqb c "&") eqn:Ec; [|eauto].
    destruct (Ascii.eqb c' "&") eqn:Ec'; [|eauto].
    apply Ascii.eqb_eq in Ec, Ec'. subst. apply IH.
Qed.

Lemma collapse_amp_single (s : string) : double_amp (collapse_amp s) = false.
Proof.
  induction s as [|c s IH]; [reflexivity|].
  destruct s as [|c' s'].
  - cbn. destruct (Ascii.eqb c "&") eqn:Ec; cbn; rewrite Ec; reflexivity.
  - rewrite collapse_amp_cons2.
    destruct (collapse_amp_head c' s') as [t Et].
    destruct (Ascii.eqb c "&") eqn:Ec.
    + destruct (Ascii.eqb c' "&") eqn:Ec'; [exact IH|].
      cbn [double_amp]. rewrite IH, Et, Ec'. now rewrite andb_false_r.
    + cbn [double_amp]. rewrite Ec, IH. reflexivity.
Qed.

Lemma strip_last_amp_clean (s : string) :
  double_amp s = false ->
  double_amp (strip_last_amp s) = false /\ final_amp (strip_last_amp s) = false.
Proof.
  induction s as [|c s IH]; [auto|].
  intros Hd. cbn [double_amp] in Hd. apply orb_false_iff in Hd.
  destruct Hd as [Hh Ht]. specialize (IH Ht). destruct IH as [IHd IHf].
  destruct s as [|c' s'].
  - cbn. destruct (Ascii.eqb c "&") eqn:Ec; cbn; [auto|]. now rewrite Ec.
  - change (strip_last_amp (String c (String c' s')))
      with (String c (strip_last_amp (String c' s'))).
    destruct (strip_last_amp (String c' s')) as [|d t] eqn:Es.
    + (* the rest was a single ampersand *)
      assert (Hc' : Ascii.eqb c' "&" = true /\ s' = EmptyString).
      { destruct s' as [|c'' s'']; cbn in Es.
        - destruct (Ascii.eqb c' "&"); [auto | discriminate].
        - discriminate. }
      destruct Hc' as [Ec' ->]. rewrite Ec', andb_true_r in Hh.
      cbn. rewrite Hh. auto.
    + assert (Hd' : d = c').
      { destruct s' as [|c'' s'']; cbn in Es.
        - destruct (Ascii.eqb c' "&"); [discriminate | congruence].
        - congruence. }
      subst d. cbn [double_amp final_amp].
      cbn [double_amp] in IHd. rewrite Hh. cbn [orb].
      split; [exact IHd | exact IHf].
Qed.

Lemma returns_bind {A B} (P : B -> Prop) (m : M A) (k : A -> M B) :
  (forall a : A, returns P (k a)) -> returns P (m ≫= k).
Proof.
  intros Hk w w' b. unfold mbind, M_bind.
  destruct (m w) as [[a | e] w1]; [apply Hk | intros [=]].
Qed.

Lemma returns_ret {A} (P : A -> Prop) (a : A) : P a -> returns P (mret a).
Proof. intros Ha w w' b [= <- _]. exact Ha. Qed.

Section GoogleUrl.
Context `{Env}.

(** Whatever the options are, a URL that [GoogleManager.get_tile_url]
    returns has no two ampersands in a row and does not end with one:
    the missing parameters leave no trace. *)
Theorem google_url_ampersands (c : coord) (zoom : Z) (w w' : World)
    (url : string) :
  get_tile_url_google c zoom w = (Ok url, w') ->
  ~ contains "&&" url /\ (forall pre : string, url <> pre +:+ "&") /\ w' = w.
Proof.
  intros E.
  assert (Hform : exists full : string,
            url = strip_last_amp (collapse_amp full) /\ w' = w).
  { assert (Hw : w' = w).
    { assert (Hr : reads_self (get_tile_url_google c zoom))
        by (unfold get_tile_url_google; reads).
      destruct (Hr w) as [Hw _]. now rewrite E in Hw. }
    assert (Hret : returns (fun u => exists full : string,
                              u = strip_last_amp (collapse_amp full))
                     (get_tile_url_google c zoom)).
    { unfold get_tile_url_google.
      repeat (apply returns_bind; intros ?).
      apply returns_ret. eauto. }
    destruct (Hret w w' url E) as [full ->]. eauto. }
  destruct Hform as (full & -> & ->).
  destruct (strip_last_amp_clean _ (collapse_amp_single full)) as [Hd Hf].
  split; [|split; [|reflexivity]].
  - intros Hc. apply contains_double_amp in Hc. congruence.
  - intros pre E'. rewrite E' in Hf. rewrite suffix_final_amp in Hf.
    discriminate.
Qed.

End GoogleUrl.

Lemma google_url_ampersands_witness :
  let url :=
    "http://maps.googleapis.com/maps/api/staticmap?&sensor=false&center=0.0,0.0&zoom=10&size=256x256&scale=2&format=png8&maptype=terrain" in
  ~ contains "&&" url /\ (forall pre : string, url <> pre +:+ "&") /\
  google_terrain_world = google_terrain_world.
Proof.
  apply (@google_url_ampersands sample_env (BBox 0 0 0 0) 10
           google_terrain_world google_terrain_world).
  vm_compute. reflexivity.
Defined.

(** ** A fresh [OSMManager] *)


Section FreshManager.
Context `{Env}.
Local Open Scope R_scope.


End FreshManager.

